(** * Medical appointment API: a shallow embedding of [app.py]

    The FastAPI application keeps three module-level collections,
    [patients_db], [doctors_db] (Python dicts keyed by integer ids) and
    [appointments_db] (a Python list of dicts), and exposes request
    handlers that read and mutate them.  Each handler is embedded as a
    function from the store (and the request's arguments) to an outcome
    together with the store the handler leaves behind, so that what an
    exception leaves in the store is part of the model.

    Python dicts iterate in insertion order, and [create_appointment]
    depends on that order, so the two record stores are association lists
    with dict semantics ([PyDict]).  The appointment records are dicts whose
    keys are looked up by name ([app["id"]], [appointment["doctor_id"]]);
    they are finite maps from key strings to values. *)

From Stdlib Require Import ZArith.
From Stdlib.Floats Require Import SpecFloat.
From stdpp Require Import gmap strings list fin_maps.

Local Open Scope Z_scope.
Local Open Scope string_scope.

(** ** Python values stored in the dict-shaped records *)

(** [datetime.now()] is read from the clock; the handler that calls it takes
    the clock reading as an argument. *)
Definition datetime := Z.

Inductive value :=
  | VInt (z : Z)
  | VStr (s : string)
  | VDatetime (t : datetime).

#[global] Instance value_eq_dec : EqDecision value.
Proof. solve_decision. Defined.

(** A dict with string keys, as produced by [BaseModel.dict()] for
    appointments and as returned by the handlers. *)
Abbreviation pydict := (gmap string value).

(** ** Python [dict] keyed by integers, in insertion order *)

Module PyDict.

Definition t (V : Type) := list (Z * V).

Definition empty {V} : t V := [].

(** [len(d)] *)
Definition len {V} (d : t V) : Z := Z.of_nat (length d).

(** [d.get(k)]: [None] when the key is absent. *)
Fixpoint get {V} (d : t V) (k : Z) : option V :=
  match d with
  | [] => None
  | (k', v) :: rest => if decide (k' = k) then Some v else get rest k
  end.

(** [d[k] = v]: an existing key keeps its position, a new key goes last. *)
Fixpoint set {V} (d : t V) (k : Z) (v : V) : t V :=
  match d with
  | [] => [(k, v)]
  | (k', v') :: rest =>
      if decide (k' = k) then (k, v) :: rest else (k', v') :: set rest k v
  end.

(** [del d[k]]: [None] stands for the [KeyError] of an absent key. *)
Fixpoint del {V} (d : t V) (k : Z) : option (t V) :=
  match d with
  | [] => None
  | (k', v) :: rest =>
      if decide (k' = k) then Some rest
      else match del rest k with
           | Some rest' => Some ((k', v) :: rest')
           | None => None
           end
  end.

(** [d.items()], [d.keys()], [d.values()], all in insertion order. *)
Definition items {V} (d : t V) : list (Z * V) := d.
Definition keys {V} (d : t V) : list Z := d.*1.
Definition values {V} (d : t V) : list V := d.*2.

(** The representation invariant of a dict: no key occurs twice. *)
Definition wf {V} (d : t V) : Prop := NoDup (keys d).

End PyDict.

(** ** The pydantic models *)

Record Patient := mkPatient {
  p_name : string;
  p_age : Z;
  p_sex : string;
  p_weight : spec_float;
  p_height : spec_float;
  p_phone : string
}.

(** [is_available: Optional[bool] = True]: the field may hold [None]. *)
Record Doctor := mkDoctor {
  name : string;
  specialization : string;
  phone : string;
  is_available : option bool
}.

(** [doc["is_available"] = b], the other three keys untouched. *)
Definition set_is_available (doc : Doctor) (b : bool) : Doctor :=
  {| name := name doc;
     specialization := specialization doc;
     phone := phone doc;
     is_available := Some b |}.

(** Truth value of an [Optional[bool]] in a condition: only [True] passes. *)
Definition truthy (o : option bool) : bool :=
  match o with
  | Some true => true
  | _ => false
  end.

(** [Appointment(patient_id=.., doctor_id=.., date=..).dict()] *)
Definition Appointment (patient_id doctor_id : Z) (date : datetime) : pydict :=
  <["patient_id" := VInt patient_id]>
    (<["doctor_id" := VInt doctor_id]>
       (<["date" := VDatetime date]> ∅)).

(** ** The in-memory database *)

Record State := mkState {
  patients_db : PyDict.t Patient;
  doctors_db : PyDict.t Doctor;
  appointments_db : list pydict
}.

Definition initial_state : State :=
  {| patients_db := PyDict.empty;
     doctors_db := PyDict.empty;
     appointments_db := [] |}.

Definition with_patients (s : State) (d : PyDict.t Patient) : State :=
  {| patients_db := d;
     doctors_db := doctors_db s;
     appointments_db := appointments_db s |}.

Definition with_doctors (s : State) (d : PyDict.t Doctor) : State :=
  {| patients_db := patients_db s;
     doctors_db := d;
     appointments_db := appointments_db s |}.

Definition with_appointments (s : State) (l : list pydict) : State :=
  {| patients_db := patients_db s;
     doctors_db := doctors_db s;
     appointments_db := l |}.

(** ** Outcomes of a handler *)

Inductive exn :=
  | HTTPException (status_code : Z) (detail : string)
  | KeyError (key : value)
  | ValueError (msg : string).

Inductive outcome :=
  | Ok (response : pydict)
  | Raise (e : exn).

(** What a handler returns: its outcome and the store it leaves. *)
Definition result := (outcome * State)%type.

(** The failure the specification calls NotFound: an [HTTPException] with
    status code 404. *)
Definition is_NotFound (o : outcome) : Prop :=
  ∃ detail, o = Raise (HTTPException 404 detail).

Definition msg (m : string) : pydict := <["message" := VStr m]> ∅.

(** ** CRUD handlers for patients *)

Definition create_patient (s : State) (patient : Patient) : result :=
  let patient_id := PyDict.len (patients_db s) + 1 in
  (Ok (<["patient_id" := VInt patient_id]> (msg "Patient created successfully")),
   with_patients s (PyDict.set (patients_db s) patient_id patient)).

(** [patients_db[patient_id].update(patient.dict())]: the subscript raises
    [KeyError] for an absent id; [update] overwrites all six keys. *)
Definition update_patient (s : State) (patient_id : Z) (patient : Patient) : result :=
  match PyDict.get (patients_db s) patient_id with
  | None => (Raise (KeyError (VInt patient_id)), s)
  | Some _ =>
      (Ok (msg "Patient updated successfully"),
       with_patients s (PyDict.set (patients_db s) patient_id patient))
  end.

Definition delete_patient (s : State) (patient_id : Z) : result :=
  match PyDict.del (patients_db s) patient_id with
  | None => (Raise (KeyError (VInt patient_id)), s)
  | Some d => (Ok (msg "Patient deleted successfully"), with_patients s d)
  end.

(** ** CRUD handlers for doctors *)

Definition create_doctor (s : State) (doctor : Doctor) : result :=
  let doctor_id := PyDict.len (doctors_db s) + 1 in
  (Ok (<["doctor_id" := VInt doctor_id]> (msg "Doctor created successfully")),
   with_doctors s (PyDict.set (doctors_db s) doctor_id doctor)).

Definition update_doctor (s : State) (doctor_id : Z) (doctor : Doctor) : result :=
  match PyDict.get (doctors_db s) doctor_id with
  | None => (Raise (KeyError (VInt doctor_id)), s)
  | Some _ =>
      (Ok (msg "Doctor updated successfully"),
       with_doctors s (PyDict.set (doctors_db s) doctor_id doctor))
  end.

Definition delete_doctor (s : State) (doctor_id : Z) : result :=
  match PyDict.del (doctors_db s) doctor_id with
  | None => (Raise (KeyError (VInt doctor_id)), s)
  | Some d => (Ok (msg "Doctor deleted successfully"), with_doctors s d)
  end.

(** ** Appointments *)

(** [[doc_id for doc_id, doc in doctors_db.items() if doc["is_available"]]] *)
Definition available_doctors (d : PyDict.t Doctor) : list Z :=
  (filter (λ kv, truthy (is_available kv.2) = true) (PyDict.items d)).*1.

(** The append to [appointments_db] happens before the subscript
    [doctors_db[doctor_id]]; the store returned with a [KeyError] there
    already holds the new appointment. *)
Definition create_appointment (s : State) (patient_id : Z) (now : datetime) : result :=
  match available_doctors (doctors_db s) with
  | [] => (Raise (HTTPException 400 "No available doctors at the moment"), s)
  | doctor_id :: _ =>
      let appointment := Appointment patient_id doctor_id now in
      let s1 := with_appointments s (appointments_db s ++ [appointment]) in
      match PyDict.get (doctors_db s1) doctor_id with
      | None => (Raise (KeyError (VInt doctor_id)), s1)
      | Some doc =>
          (Ok (msg "Appointment created successfully"),
           with_doctors s1
             (PyDict.set (doctors_db s1) doctor_id (set_is_available doc false)))
      end
  end.

(** [next((app for app in appointments_db if app["id"] == appointment_id), None)]:
    the generator evaluates [app["id"]] on each element in turn, and that
    subscript raises [KeyError] on a dict without the key. *)
Fixpoint find_by_id (l : list pydict) (appointment_id : Z) : exn + option pydict :=
  match l with
  | [] => inr None
  | app :: rest =>
      match app !! "id" with
      | None => inl (KeyError (VStr "id"))
      | Some v =>
          if decide (v = VInt appointment_id) then inr (Some app)
          else find_by_id rest appointment_id
      end
  end.

(** [l.remove(x)]: drops the first element equal to [x]; [None] stands for
    the [ValueError] raised when there is none. *)
Fixpoint list_remove (l : list pydict) (x : pydict) : option (list pydict) :=
  match l with
  | [] => None
  | y :: rest =>
      if decide (y = x) then Some rest
      else match list_remove rest x with
           | Some rest' => Some (y :: rest')
           | None => None
           end
  end.

(** [doctors_db[doctor_id]] where [doctor_id] was read out of a dict: a key
    that is not an integer is in no integer-keyed dict. *)
Definition get_doctor_by_value (d : PyDict.t Doctor) (key : value) : option (Z * Doctor) :=
  match key with
  | VInt z => match PyDict.get d z with Some doc => Some (z, doc) | None => None end
  | _ => None
  end.

(** [if not appointment]: [None] and the empty dict are both falsy.  In the
    handlers below the [None] branch under a truthy [found] is never taken;
    it only makes the match total. *)
Definition falsy (appointment : option pydict) : bool :=
  match appointment with
  | None => true
  | Some a => bool_decide (a = ∅)
  end.

Definition complete_appointment (s : State) (appointment_id : Z) : result :=
  match find_by_id (appointments_db s) appointment_id with
  | inl e => (Raise e, s)
  | inr found =>
      if falsy found
      then (Raise (HTTPException 404 "Appointment not found"), s)
      else
        match found with
        | None => (Raise (HTTPException 404 "Appointment not found"), s)
        | Some appointment =>
            match appointment !! "doctor_id" with
            | None => (Raise (KeyError (VStr "doctor_id")), s)
            | Some doctor_id =>
                match get_doctor_by_value (doctors_db s) doctor_id with
                | None => (Raise (KeyError doctor_id), s)
                | Some (k, doc) =>
                    let s1 :=
                      with_doctors s
                        (PyDict.set (doctors_db s) k (set_is_available doc true)) in
                    match list_remove (appointments_db s1) appointment with
                    | None => (Raise (ValueError "list.remove(x): x not in list"), s1)
                    | Some l =>
                        (Ok (msg "Appointment completed successfully"),
                         with_appointments s1 l)
                    end
                end
            end
        end
  end.

Definition cancel_appointment (s : State) (appointment_id : Z) : result :=
  match find_by_id (appointments_db s) appointment_id with
  | inl e => (Raise e, s)
  | inr found =>
      if falsy found
      then (Raise (HTTPException 404 "Appointment not found"), s)
      else
        match found with
        | None => (Raise (HTTPException 404 "Appointment not found"), s)
        | Some appointment =>
            match appointment !! "doctor_id" with
            | None => (Raise (KeyError (VStr "doctor_id")), s)
            | Some doctor_id =>
                match get_doctor_by_value (doctors_db s) doctor_id with
                | None => (Raise (KeyError doctor_id), s)
                | Some (k, doc) =>
                    let s1 :=
                      with_doctors s
                        (PyDict.set (doctors_db s) k (set_is_available doc true)) in
                    match list_remove (appointments_db s1) appointment with
                    | None => (Raise (ValueError "list.remove(x): x not in list"), s1)
                    | Some l =>
                        (Ok (msg "Appointment canceled successfully"),
                         with_appointments s1 l)
                    end
                end
            end
        end
  end.

(** ** Availability *)

Definition set_doctor_availability (s : State) (doctor_id : Z) (b : bool) : result :=
  match PyDict.get (doctors_db s) doctor_id with
  | None => (Raise (KeyError (VInt doctor_id)), s)
  | Some doc =>
      (Ok (msg "Doctor availability status updated successfully"),
       with_doctors s (PyDict.set (doctors_db s) doctor_id (set_is_available doc b)))
  end.

(** ** Requests and runs *)

(** The mutating endpoints.  The four GET handlers only read the store. *)
Inductive request :=
  | CreatePatient (patient : Patient)
  | UpdatePatient (patient_id : Z) (patient : Patient)
  | DeletePatient (patient_id : Z)
  | CreateDoctor (doctor : Doctor)
  | UpdateDoctor (doctor_id : Z) (doctor : Doctor)
  | DeleteDoctor (doctor_id : Z)
  | CreateAppointment (patient_id : Z) (now : datetime)
  | CompleteAppointment (appointment_id : Z)
  | CancelAppointment (appointment_id : Z)
  | SetDoctorAvailability (doctor_id : Z) (b : bool).

Definition handle (s : State) (r : request) : result :=
  match r with
  | CreatePatient p => create_patient s p
  | UpdatePatient i p => update_patient s i p
  | DeletePatient i => delete_patient s i
  | CreateDoctor d => create_doctor s d
  | UpdateDoctor i d => update_doctor s i d
  | DeleteDoctor i => delete_doctor s i
  | CreateAppointment p now => create_appointment s p now
  | CompleteAppointment i => complete_appointment s i
  | CancelAppointment i => cancel_appointment s i
  | SetDoctorAvailability i b => set_doctor_availability s i b
  end.

(** The store after serving the requests one after the other; a request that
    raised leaves whatever its handler had written. *)
Definition run (s : State) (rs : list request) : State :=
  fold_left (λ st r, (handle st r).2) rs s.

(** The three operations of the appointment life cycle. *)
Inductive lifecycle_op :=
  | OpCreate (patient_id : Z) (now : datetime)
  | OpComplete (appointment_id : Z)
  | OpCancel (appointment_id : Z).

Definition lifecycle_request (o : lifecycle_op) : request :=
  match o with
  | OpCreate p now => CreateAppointment p now
  | OpComplete i => CompleteAppointment i
  | OpCancel i => CancelAppointment i
  end.

(** ** The availability invariant *)

(** Every active appointment references a stored doctor whose flag is
    [False], and every stored doctor whose flag is [False] is referenced by
    an active appointment. *)
Definition bidirectional_invariant (s : State) : Prop :=
  (∀ a, a ∈ appointments_db s →
     ∃ d doc, a !! "doctor_id" = Some (VInt d)
              ∧ PyDict.get (doctors_db s) d = Some doc
              ∧ is_available doc = Some false)
  ∧ (∀ d doc, PyDict.get (doctors_db s) d = Some doc →
       is_available doc = Some false →
       ∃ a, a ∈ appointments_db s ∧ a !! "doctor_id" = Some (VInt d)).

(** Number of doctors with [is_available == False]. *)
Definition unavailable_count (d : PyDict.t Doctor) : nat :=
  length (filter (λ kv, is_available kv.2 = Some false) (PyDict.items d)).

(** What the life-cycle handlers maintain: the doctor store is a dict, the
    appointments are the dicts [create_appointment] builds (none has an
    ["id"] key), and the invariant with its counting form holds. *)
Definition consistent (s : State) : Prop :=
  PyDict.wf (doctors_db s)
  ∧ Forall (λ a : pydict, a !! "id" = None) (appointments_db s)
  ∧ bidirectional_invariant s
  ∧ unavailable_count (doctors_db s) = length (appointments_db s).

(** ** Identifier assignment as a log *)

Inductive id_event :=
  | Assigned (id : Z)
  | Released (id : Z).

#[global] Instance id_event_eq_dec : EqDecision id_event.
Proof. solve_decision. Defined.

(** What one served request does to patient ids: a successful create
    assigns the id it reports, a successful delete releases its id. *)
Definition patient_id_event (r : request) (o : outcome) : list id_event :=
  match r, o with
  | CreatePatient _, Ok resp =>
      match resp !! "patient_id" with
      | Some (VInt i) => [Assigned i]
      | _ => []
      end
  | DeletePatient i, Ok _ => [Released i]
  | _, _ => []
  end.

Fixpoint patient_id_log (s : State) (rs : list request) : list id_event :=
  match rs with
  | [] => []
  | r :: rest =>
      let '(o, s') := handle s r in
      patient_id_event r o ++ patient_id_log s' rest
  end.

(** Some id is assigned again after it was released. *)
Fixpoint reuses_released (log : list id_event) : bool :=
  match log with
  | [] => false
  | Released i :: rest => bool_decide (Assigned i ∈ rest) || reuses_released rest
  | Assigned _ :: rest => reuses_released rest
  end.

(** The keys of the dict [create_appointment] stores. *)
Definition appointment_fields : gset string :=
  {[ "patient_id"; "doctor_id"; "date" ]}.

(** ** Sample data used in the examples *)

Definition float_of_Z (mantissa exponent : Z) : spec_float :=
  match mantissa with
  | Zpos m => S754_finite false m exponent
  | Zneg m => S754_finite true m exponent
  | Z0 => S754_zero false
  end.

Definition ann : Patient := mkPatient "Ann" 34 "F" (float_of_Z 61 0) (float_of_Z 168 0) "555-0101".
Definition bob : Patient := mkPatient "Bob" 51 "M" (float_of_Z 80 0) (float_of_Z 181 0) "555-0102".

(** A doctor as posted with the given [is_available]; leaving the field out
    of the request body yields the default [Some true]. *)
Definition dr (n : string) (flag : option bool) : Doctor :=
  mkDoctor n "general practice" "555-0199" flag.

(** Four doctors: the first two are not available, the last two are. *)
Definition ward : State :=
  {| patients_db := PyDict.empty;
     doctors_db := [(1, dr "Ada" (Some false)); (2, dr "Ben" None);
                    (3, dr "Cy" (Some true)); (4, dr "Di" (Some true))];
     appointments_db := [] |}.

(** One doctor, booked by the one patient. *)
Definition booked : State :=
  run initial_state [CreateDoctor (dr "Ada" (Some true)); CreatePatient ann;
                     CreateAppointment 1 1700000000].

(** A store no run of the handlers produces: its appointment carries an
    ["id"] key, so the lookup of the life-cycle handlers can succeed. *)
Definition with_id : State :=
  {| patients_db := [(1, ann)];
     doctors_db := [(1, dr "Ada" (Some false)); (2, dr "Ben" (Some true))];
     appointments_db := [<["id" := VInt 7]> (Appointment 1 1 1700000000)] |}.

(** Two doctors posted without [is_available], and nothing else. *)
Definition clinic : State :=
  run initial_state [CreateDoctor (dr "Ada" (Some true)); CreateDoctor (dr "Ben" (Some true))].

(** ** Read-only handlers *)

Definition root : pydict := msg "Welcome to the medical appointment API!".

(** [list(patients_db.values())] *)
Definition get_patients (s : State) : list Patient := PyDict.values (patients_db s).

(** [patients_db.get(patient_id)]: Python's [None] for an absent id, no
    exception. *)
Definition get_patient (s : State) (patient_id : Z) : option Patient :=
  PyDict.get (patients_db s) patient_id.

Definition get_doctors (s : State) : list Doctor := PyDict.values (doctors_db s).

Definition get_doctor (s : State) (doctor_id : Z) : option Doctor :=
  PyDict.get (doctors_db s) doctor_id.

(** ** Vocabulary for runs of bookings *)

(** A booking request: the patient id and the clock reading it is served at. *)
Definition booking (r : Z * datetime) : request := CreateAppointment r.1 r.2.

(** The appointment the booking [r] yields when it is given doctor [k]. *)
Definition booked_with (r : Z * datetime) (k : Z) : pydict := Appointment r.1 k r.2.


(** [id = len(db) + 1; db[id] = v], for each [v] in turn. *)
Definition insert_all {V} (d : PyDict.t V) (vs : list V) : PyDict.t V :=
  fold_left (λ acc v, PyDict.set acc (PyDict.len acc + 1) v) vs d.

(** The ward of the examples with its first doctor booked by patient 5. *)
Definition ward_booked : State :=
  with_appointments ward [Appointment 5 1 1699990000].

(** * Properties *)

(** ** Dict lemmas *)

Section pydict_lemmas.
Context {V : Type}.
Implicit Types (d : PyDict.t V) (k : Z) (v : V).

Lemma get_None_keys d k : PyDict.get d k = None ↔ k ∉ PyDict.keys d.
Proof.
  unfold PyDict.keys. induction d as [|[k' v'] d IH]; simpl.
  - split; [intros _; apply not_elem_of_nil | done].
  - rewrite not_elem_of_cons. destruct (decide (k' = k)) as [->|Hne].
    + split; [done | intros [? _]; done].
    + rewrite IH. split; [intros ?; split; [congruence | done] | intros [_ ?]; done].
Qed.

Lemma get_Some_elem d k v : PyDict.get d k = Some v → (k, v) ∈ d.
Proof.
  induction d as [|[k' v'] d IH]; simpl; [done |].
  destruct (decide (k' = k)) as [->|Hne].
  - intros [= ->]. apply list_elem_of_here.
  - intros H. apply list_elem_of_further, IH, H.
Qed.

Lemma elem_get_wf d k v : PyDict.wf d → (k, v) ∈ d → PyDict.get d k = Some v.
Proof.
  unfold PyDict.wf, PyDict.keys. induction d as [|[k' v'] d IH]; simpl.
  - intros _ H. by apply elem_of_nil in H.
  - rewrite NoDup_cons. intros [Hnotin Hnd] Hin.
    apply elem_of_cons in Hin as [[= -> ->]|Hin].
    + by rewrite decide_True.
    + destruct (decide (k' = k)) as [->|Hne]; [| by apply IH].
      exfalso. apply Hnotin. apply (list_elem_of_fmap_2 fst) in Hin. exact Hin.
Qed.

Lemma get_set_eq d k v : PyDict.get (PyDict.set d k v) k = Some v.
Proof.
  induction d as [|[k' v'] d IH]; simpl.
  - by rewrite decide_True.
  - destruct (decide (k' = k)) as [->|Hne]; simpl.
    + by rewrite decide_True.
    + by rewrite decide_False.
Qed.

Lemma get_set_ne d k k' v : k ≠ k' → PyDict.get (PyDict.set d k v) k' = PyDict.get d k'.
Proof.
  intros Hne. induction d as [|[k0 v0] d IH]; simpl.
  - by rewrite decide_False.
  - destruct (decide (k0 = k)) as [->|Hne0]; simpl.
    + by rewrite !decide_False.
    + by rewrite IH.
Qed.

(** Writing to a key that is present keeps every key where it is. *)
Lemma keys_set_present d k v :
  is_Some (PyDict.get d k) → PyDict.keys (PyDict.set d k v) = PyDict.keys d.
Proof.
  unfold PyDict.keys. induction d as [|[k' v'] d IH]; simpl.
  - intros [? ?]; done.
  - destruct (decide (k' = k)) as [->|Hne]; simpl; [done |].
    intros H. f_equal. by apply IH.
Qed.

(** Writing to an absent key appends the binding. *)
Lemma set_absent d k v : PyDict.get d k = None → PyDict.set d k v = (d ++ [(k, v)])%list.
Proof.
  induction d as [|[k' v'] d IH]; simpl; [done |].
  destruct (decide (k' = k)) as [->|Hne]; [done |].
  intros H. by rewrite IH.
Qed.

Lemma length_set_present d k v :
  is_Some (PyDict.get d k) → length (PyDict.set d k v) = length d.
Proof.
  intros H. apply (keys_set_present d k v) in H.
  apply (f_equal length) in H. unfold PyDict.keys in H.
  by rewrite !length_fmap in H.
Qed.

Lemma set_set d k v v' : PyDict.set (PyDict.set d k v) k v' = PyDict.set d k v'.
Proof.
  induction d as [|[k' v0] d IH]; simpl.
  - by rewrite decide_True.
  - destruct (decide (k' = k)) as [->|Hne]; simpl.
    + by rewrite decide_True.
    + rewrite decide_False by done. by rewrite IH.
Qed.

Lemma del_None d k : PyDict.del d k = None ↔ PyDict.get d k = None.
Proof.
  induction d as [|[k' v'] d IH]; simpl; [done |].
  destruct (decide (k' = k)) as [->|Hne]; [done |].
  destruct (PyDict.del d k); [| tauto].
  split; [done |]. intros H. apply IH in H. done.
Qed.

Lemma del_length d k d' : PyDict.del d k = Some d' → length d = S (length d').
Proof.
  revert d'. induction d as [|[k' v'] d IH]; simpl; [done |].
  intros d'. destruct (decide (k' = k)) as [->|Hne].
  - by intros [= ->].
  - destruct (PyDict.del d k) as [r|] eqn:E; [| done].
    intros [= <-]. simpl. by rewrite (IH r).
Qed.

Lemma wf_set d k v : PyDict.wf d → PyDict.wf (PyDict.set d k v).
Proof.
  intros Hwf. destruct (PyDict.get d k) as [v0|] eqn:E.
  - unfold PyDict.wf. rewrite keys_set_present; [done | by eexists].
  - rewrite set_absent by done. unfold PyDict.wf, PyDict.keys.
    rewrite fmap_app. simpl. apply NoDup_app. split; [exact Hwf |].
    split; [| apply NoDup_singleton].
    intros x Hx Hx'. apply list_elem_of_singleton in Hx' as ->.
    by apply get_None_keys in E.
Qed.

End pydict_lemmas.

Section pydict_split.
Context {V : Type}.
Implicit Types (d la lb : PyDict.t V) (k : Z) (v : V).

Lemma get_app_notin la lb k :
  k ∉ PyDict.keys la → PyDict.get (la ++ lb)%list k = PyDict.get lb k.
Proof.
  unfold PyDict.keys. induction la as [|[k' v'] la IH]; [done |].
  rewrite fmap_cons, not_elem_of_cons. intros [Hne Hnotin]. simpl.
  rewrite decide_False by done. by apply IH.
Qed.

Lemma set_app_notin la lb k v :
  k ∉ PyDict.keys la →
  PyDict.set (la ++ lb)%list k v = (la ++ PyDict.set lb k v)%list.
Proof.
  unfold PyDict.keys. induction la as [|[k' v'] la IH]; [done |].
  rewrite fmap_cons, not_elem_of_cons. intros [Hne Hnotin]. simpl.
  rewrite decide_False by done. f_equal. by apply IH.
Qed.

Lemma set_at_split la lb k v v' :
  k ∉ PyDict.keys la →
  PyDict.set (la ++ (k, v) :: lb)%list k v' = (la ++ (k, v') :: lb)%list.
Proof.
  intros H. rewrite set_app_notin by done. simpl. by rewrite decide_True.
Qed.

Lemma get_at_split la lb k v :
  k ∉ PyDict.keys la → PyDict.get (la ++ (k, v) :: lb)%list k = Some v.
Proof.
  intros H. rewrite get_app_notin by done. simpl. by rewrite decide_True.
Qed.

(** The binding [get] reads is the first one for its key. *)
Lemma get_split d k v :
  PyDict.get d k = Some v →
  ∃ la lb, d = (la ++ (k, v) :: lb)%list ∧ k ∉ PyDict.keys la.
Proof.
  unfold PyDict.keys. induction d as [|[k' v'] d IH]; simpl; [done |].
  destruct (decide (k' = k)) as [->|Hne].
  - intros [= ->]. exists [], d. split; [done | apply not_elem_of_nil].
  - intros H. destruct (IH H) as (la & lb & -> & Hnotin).
    exists ((k', v') :: la), lb. split; [done |].
    rewrite fmap_cons, not_elem_of_cons. simpl. split; [congruence | done].
Qed.

Lemma wf_split_notin la lb k v :
  PyDict.wf (la ++ (k, v) :: lb)%list → k ∉ PyDict.keys la.
Proof.
  unfold PyDict.wf, PyDict.keys. rewrite fmap_app, fmap_cons. simpl.
  intros H Hin. apply NoDup_app in H as (_ & Hdisj & _).
  apply (Hdisj k Hin). apply list_elem_of_here.
Qed.

End pydict_split.

(** ** Selecting a doctor *)

Lemma truthy_true o : truthy o = true ↔ o = Some true.
Proof. destruct o as [[]|]; simpl; split; congruence. Qed.

Lemma available_doctors_nil d :
  (∀ k doc, (k, doc) ∈ d → is_available doc ≠ Some true) →
  available_doctors d = [].
Proof.
  unfold available_doctors, PyDict.items. intros H.
  induction d as [|[k doc] d IH]; [done |].
  rewrite filter_cons_False.
  - apply IH. intros k' doc' Hin. apply (H k' doc'). by apply list_elem_of_further.
  - simpl. rewrite truthy_true. apply (H k doc). apply list_elem_of_here.
Qed.

Lemma available_doctors_split l1 k doc l2 :
  Forall (λ kv : Z * Doctor, is_available kv.2 ≠ Some true) l1 →
  is_available doc = Some true →
  available_doctors (l1 ++ (k, doc) :: l2)%list = k :: available_doctors l2.
Proof.
  unfold available_doctors, PyDict.items. intros Hl1 Hdoc.
  induction Hl1 as [|[k' doc'] l1 Hx _ IH]; simpl.
  - rewrite filter_cons_True; [done |]. simpl. by apply truthy_true.
  - rewrite filter_cons_False; [exact IH |]. simpl. by rewrite truthy_true.
Qed.

(** The head of the comprehension is the first available doctor in the
    stored order. *)
Lemma available_doctors_cons d k rest :
  available_doctors d = k :: rest →
  ∃ l1 doc l2,
    d = (l1 ++ (k, doc) :: l2)%list
    ∧ is_available doc = Some true
    ∧ Forall (λ kv : Z * Doctor, is_available kv.2 ≠ Some true) l1.
Proof.
  unfold available_doctors, PyDict.items.
  induction d as [|[k' doc'] d IH]; [done |].
  destruct (decide (is_available doc' = Some true)) as [Hav|Hnav].
  - rewrite filter_cons_True by (simpl; by apply truthy_true). simpl.
    intros [= -> _]. exists [], doc', d. by split_and!.
  - rewrite filter_cons_False by (simpl; by rewrite truthy_true).
    intros H. destruct (IH H) as (l1 & doc & l2 & -> & Hdoc & Hl1).
    exists ((k', doc') :: l1), doc, l2. split_and!; [done | done |].
    by constructor.
Qed.

Lemma elem_get_is_Some {V} (d : PyDict.t V) k v :
  (k, v) ∈ d → is_Some (PyDict.get d k).
Proof.
  intros Hin. destruct (PyDict.get d k) eqn:E; [by eexists |].
  apply get_None_keys in E. exfalso. apply E.
  apply (list_elem_of_fmap_2 fst) in Hin. exact Hin.
Qed.

(** ** Creating an appointment *)

Lemma Appointment_doctor_id p k now : Appointment p k now !! "doctor_id" = Some (VInt k).
Proof. unfold Appointment. by simplify_map_eq. Qed.

Lemma Appointment_patient_id p k now : Appointment p k now !! "patient_id" = Some (VInt p).
Proof. unfold Appointment. by simplify_map_eq. Qed.

Lemma Appointment_no_id p k now : Appointment p k now !! "id" = None.
Proof. unfold Appointment. by simplify_map_eq. Qed.

Lemma Appointment_dom p k now : dom (Appointment p k now) = appointment_fields.
Proof.
  unfold Appointment, appointment_fields.
  rewrite !dom_insert_L, dom_empty_L. set_solver.
Qed.

(** The success path of [create_appointment], once the comprehension is
    known to start with [k]. *)
Lemma create_appointment_ok s patient_id now k rest doc :
  available_doctors (doctors_db s) = k :: rest →
  PyDict.get (doctors_db s) k = Some doc →
  create_appointment s patient_id now =
    (Ok (msg "Appointment created successfully"),
     {| patients_db := patients_db s;
        doctors_db := PyDict.set (doctors_db s) k (set_is_available doc false);
        appointments_db := (appointments_db s ++ [Appointment patient_id k now])%list |}).
Proof.
  intros Hav Hget. unfold create_appointment. rewrite Hav. simpl. by rewrite Hget.
Qed.

Lemma available_doctors_nonempty d k doc :
  PyDict.get d k = Some doc → is_available doc = Some true →
  ∃ k' rest doc', available_doctors d = k' :: rest ∧ PyDict.get d k' = Some doc'.
Proof.
  intros Hget Hav. destruct (available_doctors d) as [|k' rest] eqn:E.
  - exfalso. apply get_Some_elem in Hget.
    assert (k ∈ available_doctors d) as Hin.
    { unfold available_doctors, PyDict.items.
      apply (list_elem_of_fmap_2' fst _ (k, doc)); [| done].
      apply list_elem_of_filter. split; [| done]. simpl. by apply truthy_true. }
    rewrite E in Hin. by apply elem_of_nil in Hin.
  - destruct (available_doctors_cons _ _ _ E) as (l1 & doc' & l2 & Hd & _ & _).
    destruct (elem_get_is_Some d k' doc') as [doc'' Hdoc''].
    { rewrite Hd. apply elem_of_app. right. apply list_elem_of_here. }
    by exists k', rest, doc''.
Qed.

(** C3: whenever the doctor store holds an available doctor,
    [create_appointment] selects the first doctor in the store's stored
    order whose [is_available] is [True] (everything before it in
    [doctors_db.items()] is unavailable), and the appointment it appends
    carries that doctor's id as [doctor_id]. *)
Theorem create_appointment_selects_first_available
    (s : State) (patient_id : Z) (now : datetime)
    (l1 l2 : list (Z * Doctor)) (k : Z) (doc : Doctor) :
  PyDict.items (doctors_db s) = (l1 ++ (k, doc) :: l2)%list →
  Forall (λ kv : Z * Doctor, is_available kv.2 ≠ Some true) l1 →
  is_available doc = Some true →
  head (available_doctors (doctors_db s)) = Some k
  ∧ ∃ resp s',
      create_appointment s patient_id now = (Ok resp, s')
      ∧ appointments_db s' = (appointments_db s ++ [Appointment patient_id k now])%list
      ∧ Appointment patient_id k now !! "doctor_id" = Some (VInt k).
Proof.
  unfold PyDict.items. intros Hd Hl1 Hdoc.
  pose proof (available_doctors_split l1 k doc l2 Hl1 Hdoc) as Hav.
  rewrite <- Hd in Hav. split; [by rewrite Hav |].
  destruct (elem_get_is_Some (doctors_db s) k doc) as [doc' Hget].
  { rewrite Hd. apply elem_of_app. right. apply list_elem_of_here. }
  eexists _, _. split; [exact (create_appointment_ok s patient_id now k _ doc' Hav Hget) |].
  split; [done | apply Appointment_doctor_id].
Qed.

Lemma create_appointment_selects_first_available_witness :
  head (available_doctors (doctors_db ward)) = Some 3
  ∧ ∃ resp s',
      create_appointment ward 7 1700000000 = (Ok resp, s')
      ∧ appointments_db s' = (appointments_db ward ++ [Appointment 7 3 1700000000])%list
      ∧ Appointment 7 3 1700000000 !! "doctor_id" = Some (VInt 3).
Proof.
  apply (create_appointment_selects_first_available ward 7 1700000000
           [(1, dr "Ada" (Some false)); (2, dr "Ben" None)]
           [(4, dr "Di" (Some true))] 3 (dr "Cy" (Some true))).
  - reflexivity.
  - repeat constructor; simpl; discriminate.
  - reflexivity.
Defined.

(** C4: when no doctor has [is_available == True], [create_appointment]
    raises [HTTPException(status_code=400)] and the store it leaves is the
    store it found: no appointment appended, no doctor or patient record
    touched. *)
Theorem create_appointment_no_available_doctor
    (s : State) (patient_id : Z) (now : datetime) :
  Forall (λ kv : Z * Doctor, is_available kv.2 ≠ Some true) (PyDict.items (doctors_db s)) →
  create_appointment s patient_id now =
    (Raise (HTTPException 400 "No available doctors at the moment"), s).
Proof.
  intros H. unfold create_appointment. rewrite available_doctors_nil; [done |].
  intros k doc Hin. rewrite Forall_forall in H. exact (H (k, doc) Hin).
Qed.

Lemma create_appointment_no_available_doctor_witness :
  create_appointment (with_doctors booked [(1, dr "Ada" (Some false)); (2, dr "Ben" None)])
                     1 1700000500 =
    (Raise (HTTPException 400 "No available doctors at the moment"),
     with_doctors booked [(1, dr "Ada" (Some false)); (2, dr "Ben" None)]).
Proof.
  apply (create_appointment_no_available_doctor
           (with_doctors booked [(1, dr "Ada" (Some false)); (2, dr "Ben" None)])
           1 1700000500).
  repeat constructor; simpl; discriminate.
Defined.

(** C10: [create_appointment] does not read [patients_db].  With an
    available doctor in the store it succeeds for every [patient_id], leaves
    the patient store as it was and appends an appointment carrying that
    [patient_id]; and replacing the patient store by any other changes
    neither the outcome nor what is written to doctors and appointments. *)
Theorem create_appointment_ignores_patients
    (s : State) (patients : PyDict.t Patient) (patient_id : Z) (now : datetime)
    (k : Z) (doc : Doctor) :
  PyDict.get (doctors_db s) k = Some doc →
  is_available doc = Some true →
  (∃ resp s' a,
      create_appointment s patient_id now = (Ok resp, s')
      ∧ patients_db s' = patients_db s
      ∧ appointments_db s' = (appointments_db s ++ [a])%list
      ∧ a !! "patient_id" = Some (VInt patient_id))
  ∧ create_appointment (with_patients s patients) patient_id now =
      ((create_appointment s patient_id now).1,
       with_patients (create_appointment s patient_id now).2 patients).
Proof.
  intros Hget Hav.
  destruct (available_doctors_nonempty _ _ _ Hget Hav) as (k' & rest & doc' & E & Hget').
  split.
  - eexists _, _, _. split; [exact (create_appointment_ok s patient_id now k' rest doc' E Hget') |].
    simpl. split_and!; [done | done | apply Appointment_patient_id].
  - rewrite (create_appointment_ok s patient_id now k' rest doc' E Hget').
    by rewrite (create_appointment_ok (with_patients s patients) patient_id now k' rest doc' E Hget').
Qed.

Lemma create_appointment_ignores_patients_witness :
  PyDict.get (patients_db ward) 42 = None
  ∧ (∃ resp s' a,
        create_appointment ward 42 1700000000 = (Ok resp, s')
        ∧ patients_db s' = patients_db ward
        ∧ appointments_db s' = (appointments_db ward ++ [a])%list
        ∧ a !! "patient_id" = Some (VInt 42))
  ∧ create_appointment (with_patients ward [(1, ann); (2, bob)]) 42 1700000000 =
      ((create_appointment ward 42 1700000000).1,
       with_patients (create_appointment ward 42 1700000000).2 [(1, ann); (2, bob)]).
Proof.
  split; [reflexivity |].
  apply (create_appointment_ignores_patients ward [(1, ann); (2, bob)] 42 1700000000
           4 (dr "Di" (Some true))); reflexivity.
Defined.

(** ** Completing and cancelling *)

Lemma fields_no_id (a : pydict) : dom a = appointment_fields → a !! "id" = None.
Proof.
  intros Hdom. apply not_elem_of_dom. rewrite Hdom.
  unfold appointment_fields. rewrite !not_elem_of_union, !not_elem_of_singleton.
  split_and!; discriminate.
Qed.

(** On a list of dicts without an ["id"] key the generator raises at its
    first element; only the empty list lets [next] reach its default. *)
Lemma find_by_id_no_id l i :
  Forall (λ a : pydict, a !! "id" = None) l →
  find_by_id l i = match l with
                   | [] => inr None
                   | _ :: _ => inl (KeyError (VStr "id"))
                   end.
Proof. intros H. destruct H as [|a l Ha _]; simpl; [done |]. by rewrite Ha. Qed.

Lemma complete_appointment_no_id s i :
  Forall (λ a : pydict, a !! "id" = None) (appointments_db s) →
  complete_appointment s i =
    (match appointments_db s with
     | [] => Raise (HTTPException 404 "Appointment not found")
     | _ :: _ => Raise (KeyError (VStr "id"))
     end, s).
Proof.
  intros H. unfold complete_appointment. rewrite (find_by_id_no_id _ i H).
  by destruct (appointments_db s).
Qed.

Lemma cancel_appointment_no_id s i :
  Forall (λ a : pydict, a !! "id" = None) (appointments_db s) →
  cancel_appointment s i =
    (match appointments_db s with
     | [] => Raise (HTTPException 404 "Appointment not found")
     | _ :: _ => Raise (KeyError (VStr "id"))
     end, s).
Proof.
  intros H. unfold cancel_appointment. rewrite (find_by_id_no_id _ i H).
  by destruct (appointments_db s).
Qed.

Lemma list_remove_Forall (P : pydict → Prop) l x l' :
  list_remove l x = Some l' → Forall P l → Forall P l'.
Proof.
  revert l'. induction l as [|y l IH]; simpl; [done |].
  intros l' Hrm Hall. apply Forall_cons in Hall as [Hy Hl].
  destruct (decide (y = x)) as [->|Hne].
  - by injection Hrm as <-.
  - destruct (list_remove l x) as [r|]; [| done].
    injection Hrm as <-. constructor; [done | by apply IH].
Qed.

Lemma complete_appointment_Forall (P : pydict → Prop) s i :
  Forall P (appointments_db s) → Forall P (appointments_db (complete_appointment s i).2).
Proof.
  intros H. unfold complete_appointment.
  repeat case_match; simpl; try done.
  eapply list_remove_Forall; [eassumption | done].
Qed.

Lemma cancel_appointment_Forall (P : pydict → Prop) s i :
  Forall P (appointments_db s) → Forall P (appointments_db (cancel_appointment s i).2).
Proof.
  intros H. unfold cancel_appointment.
  repeat case_match; simpl; try done.
  eapply list_remove_Forall; [eassumption | done].
Qed.

Lemma create_appointment_appends s patient_id now :
  appointments_db (create_appointment s patient_id now).2 = appointments_db s
  ∨ ∃ k, appointments_db (create_appointment s patient_id now).2
         = (appointments_db s ++ [Appointment patient_id k now])%list.
Proof.
  unfold create_appointment.
  destruct (available_doctors (doctors_db s)) as [|k rest]; [by left |].
  right. exists k. simpl. by destruct (PyDict.get (doctors_db s) k).
Qed.

(** Every handler leaves in [appointments_db] only dicts with the three
    keys of the pydantic model. *)
Lemma handle_appointment_fields s r :
  Forall (λ a : pydict, dom a = appointment_fields) (appointments_db s) →
  Forall (λ a : pydict, dom a = appointment_fields) (appointments_db (handle s r).2).
Proof.
  intros H. destruct r; simpl.
  - done.
  - unfold update_patient. by case_match.
  - unfold delete_patient. by case_match.
  - done.
  - unfold update_doctor. by case_match.
  - unfold delete_doctor. by case_match.
  - destruct (create_appointment_appends s patient_id now) as [->|[k ->]]; [done |].
    apply Forall_app. split; [done |]. constructor; [apply Appointment_dom | constructor].
  - by apply complete_appointment_Forall.
  - by apply cancel_appointment_Forall.
  - unfold set_doctor_availability. by case_match.
Qed.

Lemma run_appointment_fields rs s :
  Forall (λ a : pydict, dom a = appointment_fields) (appointments_db s) →
  Forall (λ a : pydict, dom a = appointment_fields) (appointments_db (run s rs)).
Proof.
  revert s. induction rs as [|r rs IH]; intros s H; [done |].
  apply (IH (handle s r).2). by apply handle_appointment_fields.
Qed.

(** In every store the handlers can produce, completing or cancelling
    raises [KeyError('id')] as soon as one appointment is active. *)
Lemma reachable_complete_KeyError rs i :
  appointments_db (run initial_state rs) ≠ [] →
  complete_appointment (run initial_state rs) i
  = (Raise (KeyError (VStr "id")), run initial_state rs).
Proof.
  intros Hne. rewrite complete_appointment_no_id.
  - by destruct (appointments_db (run initial_state rs)).
  - eapply Forall_impl; [apply run_appointment_fields; constructor |].
    intros a. apply fields_no_id.
Qed.

(** C9: the record [create_appointment] appends has exactly the keys
    [patient_id], [doctor_id] and [date], hence no [id]; and since nothing
    else adds to [appointments_db], after any sequence of requests from the
    empty store every active appointment has exactly those keys and no
    [id], the key [complete_appointment] and [cancel_appointment] read. *)
Theorem appointments_never_have_id :
  (∀ s patient_id now resp s',
      create_appointment s patient_id now = (Ok resp, s') →
      ∃ a, appointments_db s' = (appointments_db s ++ [a])%list
           ∧ dom a = appointment_fields
           ∧ a !! "id" = None)
  ∧ (∀ rs,
      Forall (λ a : pydict, dom a = appointment_fields ∧ a !! "id" = None)
             (appointments_db (run initial_state rs))).
Proof.
  split.
  - intros s patient_id now resp s'. unfold create_appointment.
    destruct (available_doctors (doctors_db s)) as [|k rest]; [done |]. simpl.
    destruct (PyDict.get (doctors_db s) k); [| done].
    intros [= _ <-]. exists (Appointment patient_id k now). simpl.
    split_and!; [done | apply Appointment_dom | apply Appointment_no_id].
  - intros rs. eapply Forall_impl; [apply run_appointment_fields; constructor |].
    intros a Ha. split; [done | by apply fields_no_id].
Qed.

(** The new record after one booking, key by key. *)
Example booked_appointment :
  appointments_db booked = [Appointment 1 1 1700000000]
  ∧ map_to_list (Appointment 1 1 1700000000)
    ≡ₚ [("patient_id", VInt 1); ("doctor_id", VInt 1); ("date", VDatetime 1700000000)].
Proof.
  split; [reflexivity |].
  unfold Appointment. rewrite !map_to_list_insert, map_to_list_empty by by simplify_map_eq.
  done.
Qed.

(** C5: on every store and for every id, [cancel_appointment] and
    [complete_appointment] leave the same store and raise the same
    exception; when they succeed they differ in the message only. *)
Theorem complete_cancel_same_effect (s : State) (appointment_id : Z) :
  (complete_appointment s appointment_id).2 = (cancel_appointment s appointment_id).2
  ∧ match (complete_appointment s appointment_id).1,
          (cancel_appointment s appointment_id).1 with
    | Raise e1, Raise e2 => e1 = e2
    | Ok r1, Ok r2 =>
        r1 = msg "Appointment completed successfully"
        ∧ r2 = msg "Appointment canceled successfully"
    | _, _ => False
    end.
Proof.
  unfold complete_appointment, cancel_appointment.
  destruct (find_by_id (appointments_db s) appointment_id) as [e|found]; [done |].
  destruct (falsy found); [done |].
  destruct found as [appointment|]; [| done].
  destruct (appointment !! "doctor_id") as [doctor_id|]; [| done].
  destruct (get_doctor_by_value (doctors_db s) doctor_id) as [[k doc]|]; [| done].
  simpl. by destruct (list_remove (appointments_db s) appointment).
Qed.

(** The success path exists in the model: on a store whose appointment has
    an ["id"], both handlers free the doctor and drop the appointment. *)
Example complete_with_id :
  complete_appointment with_id 7
  = (Ok (msg "Appointment completed successfully"),
     {| patients_db := [(1, ann)];
        doctors_db := [(1, dr "Ada" (Some true)); (2, dr "Ben" (Some true))];
        appointments_db := [] |})
  ∧ cancel_appointment with_id 7
  = (Ok (msg "Appointment canceled successfully"),
     {| patients_db := [(1, ann)];
        doctors_db := [(1, dr "Ada" (Some true)); (2, dr "Ben" (Some true))];
        appointments_db := [] |})
  ∧ is_NotFound (complete_appointment with_id 8).1.
Proof. split_and!; [reflexivity | reflexivity | by eexists]. Qed.

(** C2 (the code departs from it): after one doctor, one patient and one
    booking, the only active appointment has no ["id"], so no active
    appointment has the id asked for; yet [complete_appointment] raises
    [KeyError('id')] for every id instead of [HTTPException(404)], and the
    store keeps the appointment and the doctor's flag. *)
Theorem complete_appointment_booked_KeyError :
  appointments_db booked = [Appointment 1 1 1700000000]
  ∧ PyDict.get (doctors_db booked) 1 = Some (dr "Ada" (Some false))
  ∧ ∀ appointment_id,
      complete_appointment booked appointment_id
      = (Raise (KeyError (VStr "id")), booked).
Proof.
  split_and!; [reflexivity | reflexivity |].
  intros i. apply (reachable_complete_KeyError
    [CreateDoctor (dr "Ada" (Some true)); CreatePatient ann;
     CreateAppointment 1 1700000000] i).
  discriminate.
Qed.

(** ** Doctor availability *)

Lemma set_is_available_idemp doc b :
  set_is_available (set_is_available doc b) b = set_is_available doc b.
Proof. done. Qed.

(** C6 as stated fails: for a [doctor_id] that is not in the store the
    handler raises [KeyError], which is not an [HTTPException] with status
    404. *)
Lemma set_doctor_availability_absent_not_NotFound :
  PyDict.get (doctors_db ward) 9 = None
  ∧ set_doctor_availability ward 9 true = (Raise (KeyError (VInt 9)), ward)
  ∧ ¬ (is_NotFound (set_doctor_availability ward 9 true).1).
Proof.
  split_and!; [reflexivity | reflexivity |].
  intros [detail H]. discriminate H.
Qed.

(** C6, amended: for an absent [doctor_id] the handler raises [KeyError]
    and leaves the store as it was; for a present one it succeeds and the
    store differs from the old one only in that doctor's [is_available],
    now [b] (same position, same name, specialization and phone, every other
    record and both other collections untouched); and serving the same
    request a second time gives the same outcome and the same store. *)
Theorem set_doctor_availability_spec (s : State) (doctor_id : Z) (b : bool) :
  (PyDict.get (doctors_db s) doctor_id = None →
     set_doctor_availability s doctor_id b = (Raise (KeyError (VInt doctor_id)), s))
  ∧ (∀ doc, PyDict.get (doctors_db s) doctor_id = Some doc →
       ∃ l1 l2,
         doctors_db s = (l1 ++ (doctor_id, doc) :: l2)%list
         ∧ (doctor_id ∉ PyDict.keys l1)
         ∧ set_doctor_availability s doctor_id b =
             (Ok (msg "Doctor availability status updated successfully"),
              {| patients_db := patients_db s;
                 doctors_db :=
                   (l1 ++ (doctor_id,
                           mkDoctor (name doc) (specialization doc) (phone doc) (Some b))
                       :: l2)%list;
                 appointments_db := appointments_db s |}))
  ∧ set_doctor_availability (set_doctor_availability s doctor_id b).2 doctor_id b
    = set_doctor_availability s doctor_id b.
Proof.
  split_and!.
  - intros H. unfold set_doctor_availability. by rewrite H.
  - intros doc H. destruct (get_split _ _ _ H) as (l1 & l2 & Hd & Hnotin).
    exists l1, l2. split_and!; [done | done |].
    unfold set_doctor_availability, with_doctors. rewrite H, Hd.
    by rewrite set_at_split.
  - unfold set_doctor_availability.
    destruct (PyDict.get (doctors_db s) doctor_id) as [doc|] eqn:E; simpl.
    + rewrite get_set_eq. unfold with_doctors. simpl.
      by rewrite set_set, set_is_available_idemp.
    + by rewrite E.
Qed.

Example set_doctor_availability_ward :
  set_doctor_availability ward 2 true
  = (Ok (msg "Doctor availability status updated successfully"),
     {| patients_db := [];
        doctors_db := [(1, dr "Ada" (Some false)); (2, dr "Ben" (Some true));
                       (3, dr "Cy" (Some true)); (4, dr "Di" (Some true))];
        appointments_db := [] |}).
Proof. reflexivity. Qed.

(** ** Patient records *)

(** C8 as stated fails: updating or deleting an absent patient id raises
    [KeyError], not an [HTTPException] with status 404; no status code and
    no message are chosen by the handler. *)
Lemma update_delete_absent_patient_not_NotFound :
  PyDict.get (patients_db booked) 5 = None
  ∧ update_patient booked 5 bob = (Raise (KeyError (VInt 5)), booked)
  ∧ delete_patient booked 5 = (Raise (KeyError (VInt 5)), booked)
  ∧ ¬ (is_NotFound (update_patient booked 5 bob).1)
  ∧ ¬ (is_NotFound (delete_patient booked 5).1).
Proof.
  split_and!; try reflexivity; intros [detail H]; discriminate H.
Qed.

(** C8, amended: for an id absent from the patient store, both
    [update_patient] and [delete_patient] raise [KeyError] with that id and
    leave the store unchanged. *)
Theorem update_delete_absent_patient
    (s : State) (patient_id : Z) (patient : Patient) :
  PyDict.get (patients_db s) patient_id = None →
  update_patient s patient_id patient = (Raise (KeyError (VInt patient_id)), s)
  ∧ delete_patient s patient_id = (Raise (KeyError (VInt patient_id)), s).
Proof.
  intros H. unfold update_patient, delete_patient. rewrite H.
  apply del_None in H. by rewrite H.
Qed.

Lemma update_delete_absent_patient_witness :
  update_patient booked 5 bob = (Raise (KeyError (VInt 5)), booked)
  ∧ delete_patient booked 5 = (Raise (KeyError (VInt 5)), booked).
Proof. apply (update_delete_absent_patient booked 5 bob). reflexivity. Defined.

(** ** Identifiers *)

Lemma notin_seq_succ n : Z.of_nat n + 1 ∉ Z.of_nat <$> seq 1 n.
Proof.
  intros Hin. apply list_elem_of_fmap in Hin as (y & Hy & Hin).
  apply elem_of_seq in Hin. lia.
Qed.

Lemma keys_seq_len {V} (d : PyDict.t V) n :
  PyDict.keys d = Z.of_nat <$> seq 1 n → PyDict.len d = Z.of_nat n.
Proof.
  intros H. apply (f_equal length) in H. unfold PyDict.keys in H.
  rewrite !length_fmap, length_seq in H. unfold PyDict.len. by rewrite H.
Qed.

(** Inserting under [len + 1] into a dict whose keys are [1..n] appends
    the key [n + 1]. *)
Lemma keys_set_next {V} (d : PyDict.t V) n v :
  PyDict.keys d = Z.of_nat <$> seq 1 n →
  PyDict.keys (PyDict.set d (PyDict.len d + 1) v) = Z.of_nat <$> seq 1 (S n).
Proof.
  intros H. rewrite (keys_seq_len d n H).
  rewrite set_absent.
  - unfold PyDict.keys in *. rewrite fmap_app, H, seq_S, fmap_app.
    f_equal. simpl. f_equal. lia.
  - apply get_None_keys. rewrite H. apply notin_seq_succ.
Qed.

Lemma run_create_patients ps s n :
  PyDict.keys (patients_db s) = Z.of_nat <$> seq 1 n →
  PyDict.keys (patients_db (run s (CreatePatient <$> ps)))
  = Z.of_nat <$> seq 1 (n + length ps).
Proof.
  revert s n. induction ps as [|p ps IH]; intros s n H.
  - simpl. by rewrite Nat.add_0_r.
  - simpl. rewrite <- Nat.add_succ_comm. apply IH. simpl. by apply keys_set_next.
Qed.

Lemma run_create_doctors ds s n :
  PyDict.keys (doctors_db s) = Z.of_nat <$> seq 1 n →
  PyDict.keys (doctors_db (run s (CreateDoctor <$> ds)))
  = Z.of_nat <$> seq 1 (n + length ds).
Proof.
  revert s n. induction ds as [|d ds IH]; intros s n H.
  - simpl. by rewrite Nat.add_0_r.
  - simpl. rewrite <- Nat.add_succ_comm. apply IH. simpl. by apply keys_set_next.
Qed.

(** C7 as stated fails: after patient 1 is deleted, the next create assigns
    id 1 again. *)
Lemma patient_id_reused_after_delete :
  patient_id_log initial_state [CreatePatient ann; DeletePatient 1; CreatePatient bob]
  = [Assigned 1; Released 1; Assigned 1]
  ∧ reuses_released
      (patient_id_log initial_state
         [CreatePatient ann; DeletePatient 1; CreatePatient bob]) = true.
Proof. split; reflexivity. Qed.

(** With a gap below the top, the id assigned is even that of a live
    record, which the create overwrites. *)
Example patient_id_collides_with_live_record :
  let s := run initial_state [CreatePatient ann; CreatePatient bob; DeletePatient 1] in
  PyDict.get (patients_db s) 2 = Some bob
  ∧ create_patient s ann
    = (Ok (<["patient_id" := VInt 2]> (msg "Patient created successfully")),
       with_patients s [(2, ann)]).
Proof. split; reflexivity. Qed.

(** C7, amended: a create on the patient (or doctor) store reports and
    uses the id [len(store) + 1], a positive integer, and stores the posted
    record under it; in a run of creates from the empty store, with no
    delete, the stored ids are 1, 2, ..., n in that order. *)
Theorem create_assigns_len_plus_one :
  (∀ s patient,
      create_patient s patient
      = (Ok (<["patient_id" := VInt (PyDict.len (patients_db s) + 1)]>
               (msg "Patient created successfully")),
         with_patients s
           (PyDict.set (patients_db s) (PyDict.len (patients_db s) + 1) patient))
      ∧ 0 < PyDict.len (patients_db s) + 1
      ∧ PyDict.get (patients_db (create_patient s patient).2)
                   (PyDict.len (patients_db s) + 1) = Some patient)
  ∧ (∀ s doctor,
      create_doctor s doctor
      = (Ok (<["doctor_id" := VInt (PyDict.len (doctors_db s) + 1)]>
               (msg "Doctor created successfully")),
         with_doctors s
           (PyDict.set (doctors_db s) (PyDict.len (doctors_db s) + 1) doctor))
      ∧ 0 < PyDict.len (doctors_db s) + 1
      ∧ PyDict.get (doctors_db (create_doctor s doctor).2)
                   (PyDict.len (doctors_db s) + 1) = Some doctor)
  ∧ (∀ ps, PyDict.keys (patients_db (run initial_state (CreatePatient <$> ps)))
           = Z.of_nat <$> seq 1 (length ps))
  ∧ (∀ ds, PyDict.keys (doctors_db (run initial_state (CreateDoctor <$> ds)))
           = Z.of_nat <$> seq 1 (length ds)).
Proof.
  split_and!.
  - intros s p. split_and!; [done | unfold PyDict.len; lia | apply get_set_eq].
  - intros s d. split_and!; [done | unfold PyDict.len; lia | apply get_set_eq].
  - intros ps. by apply (run_create_patients ps initial_state 0%nat).
  - intros ds. by apply (run_create_doctors ds initial_state 0%nat).
Qed.

(** ** The availability invariant along the life cycle *)

Lemma unavailable_count_app (l1 l2 : list (Z * Doctor)) :
  unavailable_count (l1 ++ l2)%list = (unavailable_count l1 + unavailable_count l2)%nat.
Proof. unfold unavailable_count, PyDict.items. by rewrite filter_app, length_app. Qed.

Lemma unavailable_count_cons k doc (l : list (Z * Doctor)) :
  unavailable_count ((k, doc) :: l)
  = ((if decide (is_available doc = Some false) then 1 else 0) + unavailable_count l)%nat.
Proof.
  unfold unavailable_count, PyDict.items. destruct (decide _) as [H|H].
  - by rewrite filter_cons_True.
  - by rewrite filter_cons_False.
Qed.

(** Booking flips exactly one flag from [True] to [False]. *)
Lemma unavailable_count_book l1 l2 k doc :
  is_available doc = Some true →
  unavailable_count (l1 ++ (k, set_is_available doc false) :: l2)%list
  = S (unavailable_count (l1 ++ (k, doc) :: l2)%list).
Proof.
  intros Hav. rewrite !unavailable_count_app, !unavailable_count_cons. simpl.
  rewrite Hav. repeat case_decide; try done; lia.
Qed.

Lemma consistent_fresh s :
  PyDict.wf (doctors_db s) →
  appointments_db s = [] →
  Forall (λ kv : Z * Doctor, is_available kv.2 ≠ Some false) (PyDict.items (doctors_db s)) →
  consistent s.
Proof.
  unfold PyDict.items. intros Hwf Happ Hall. unfold consistent, bidirectional_invariant.
  rewrite Happ. split_and!; [done | constructor | | | ].
  - intros a Ha. by apply elem_of_nil in Ha.
  - intros d doc Hget Hflag. apply get_Some_elem in Hget.
    rewrite Forall_forall in Hall. by destruct (Hall _ Hget).
  - unfold unavailable_count, PyDict.items. simpl.
    induction Hall as [|[k doc] l Hx _ IH]; [done |].
    rewrite filter_cons_False by done. apply IH.
    unfold PyDict.wf, PyDict.keys in Hwf. rewrite fmap_cons in Hwf.
    by apply NoDup_cons in Hwf as [_ ?].
Qed.

Lemma consistent_initial : consistent initial_state.
Proof. apply consistent_fresh; [apply NoDup_nil_2 | done | constructor]. Qed.

Lemma create_appointment_consistent s patient_id now :
  consistent s → consistent (create_appointment s patient_id now).2.
Proof.
  intros (Hwf & Hnoid & [Hfwd Hbwd] & Hcount).
  destruct (available_doctors (doctors_db s)) as [|k rest] eqn:E.
  { unfold create_appointment. rewrite E. by split_and!. }
  destruct (available_doctors_cons _ _ _ E) as (l1 & doc & l2 & Hd & Hav & _).
  assert (k ∉ PyDict.keys l1) as Hk by (rewrite Hd in Hwf; by eapply wf_split_notin).
  assert (PyDict.get (doctors_db s) k = Some doc) as Hget
    by (rewrite Hd; by apply get_at_split).
  rewrite (create_appointment_ok s patient_id now k rest doc E Hget).
  unfold consistent, bidirectional_invariant. simpl. split_and!.
  - by apply wf_set.
  - apply Forall_app. split; [done |].
    constructor; [apply Appointment_no_id | constructor].
  - intros a Ha. apply elem_of_app in Ha as [Ha|Ha].
    + destruct (Hfwd a Ha) as (d & doc0 & Hdoc & Hget0 & Hflag).
      exists d, doc0. split_and!; [done | | done].
      rewrite get_set_ne; [done |]. intros <-. congruence.
    + apply list_elem_of_singleton in Ha as ->.
      exists k, (set_is_available doc false).
      split_and!; [apply Appointment_doctor_id | apply get_set_eq | done].
  - intros d doc0 Hget0 Hflag. destruct (decide (k = d)) as [<-|Hne].
    + exists (Appointment patient_id k now).
      split; [| apply Appointment_doctor_id].
      apply elem_of_app. right. by apply list_elem_of_singleton.
    + rewrite get_set_ne in Hget0 by done.
      destruct (Hbwd d doc0 Hget0 Hflag) as (a & Ha & Hdoc).
      exists a. split; [| done]. apply elem_of_app. by left.
  - rewrite length_app. simpl. rewrite Hd, set_at_split by done.
    rewrite unavailable_count_book by done. rewrite <- Hd, Hcount. lia.
Qed.

Lemma handle_lifecycle_consistent s o :
  consistent s → consistent (handle s (lifecycle_request o)).2.
Proof.
  intros H. destruct o; simpl.
  - by apply create_appointment_consistent.
  - rewrite complete_appointment_no_id; [done | apply H].
  - rewrite cancel_appointment_no_id; [done | apply H].
Qed.

Lemma run_lifecycle_consistent ops s :
  consistent s → consistent (run s (lifecycle_request <$> ops)).
Proof.
  revert s. induction ops as [|o ops IH]; intros s H; [done |].
  apply (IH (handle s (lifecycle_request o)).2). by apply handle_lifecycle_consistent.
Qed.

(** From the empty store the three operations find no doctor to book. *)
Lemma run_lifecycle_initial ops :
  run initial_state (lifecycle_request <$> ops) = initial_state.
Proof. induction ops as [|[] ops IH]; simpl; done. Qed.

(** The invariant at work on a store with doctors: three bookings against
    two doctors, then a completion and a cancellation. *)
Example clinic_run :
  let s := run clinic (lifecycle_request <$>
                         [OpCreate 1 1700000000; OpCreate 2 1700000060;
                          OpCreate 3 1700000120; OpComplete 1; OpCancel 2]) in
  consistent s
  ∧ unavailable_count (doctors_db s) = 2%nat
  ∧ appointments_db s = [Appointment 1 1 1700000000; Appointment 2 2 1700000060].
Proof.
  split; [| split; reflexivity].
  apply run_lifecycle_consistent, consistent_fresh.
  - unfold PyDict.wf. simpl. apply (bool_decide_unpack _). reflexivity.
  - reflexivity.
  - repeat constructor; simpl; discriminate.
Qed.

(** C1: after every sequence of [create_appointment],
    [complete_appointment] and [cancel_appointment] requests served from the
    empty store (every prefix of a sequence is a sequence), each active
    appointment references a doctor whose flag is [False], each doctor whose
    flag is [False] is referenced by an active appointment, and the number
    of doctors with [is_available == False] equals the number of active
    appointments.  The second part states that the three operations keep
    this from any store where it holds and whose appointments are those
    [create_appointment] builds. *)
Theorem lifecycle_keeps_bidirectional_invariant :
  (∀ ops : list lifecycle_op,
      bidirectional_invariant (run initial_state (lifecycle_request <$> ops))
      ∧ unavailable_count (doctors_db (run initial_state (lifecycle_request <$> ops)))
        = length (appointments_db (run initial_state (lifecycle_request <$> ops))))
  ∧ (∀ (s : State) (ops : list lifecycle_op),
      consistent s →
      bidirectional_invariant (run s (lifecycle_request <$> ops))
      ∧ unavailable_count (doctors_db (run s (lifecycle_request <$> ops)))
        = length (appointments_db (run s (lifecycle_request <$> ops)))).
Proof.
  assert (∀ s ops, consistent s →
            bidirectional_invariant (run s (lifecycle_request <$> ops))
            ∧ unavailable_count (doctors_db (run s (lifecycle_request <$> ops)))
              = length (appointments_db (run s (lifecycle_request <$> ops)))) as Hgen.
  { intros s ops Hs.
    destruct (run_lifecycle_consistent ops s Hs) as (_ & _ & Hinv & Hcount). done. }
  split; [| exact Hgen].
  intros ops. apply Hgen, consistent_initial.
Qed.

(** * Further properties of the handlers *)

(** ** Deleting from a dict *)

Section pydict_del.
Context {V : Type}.
Implicit Types (d la lb : PyDict.t V) (k : Z) (v : V).

Lemma del_app_notin la lb k :
  k ∉ PyDict.keys la →
  PyDict.del (la ++ lb)%list k = (la ++.) <$> PyDict.del lb k.
Proof.
  unfold PyDict.keys. induction la as [|[k' v'] la IH].
  - intros _. simpl. by destruct (PyDict.del lb k).
  - rewrite fmap_cons, not_elem_of_cons. simpl. intros [Hne Hnotin].
    rewrite decide_False by done. rewrite IH by done.
    by destruct (PyDict.del lb k).
Qed.

Lemma del_at_split la lb k v :
  k ∉ PyDict.keys la →
  PyDict.del (la ++ (k, v) :: lb)%list k = Some (la ++ lb)%list.
Proof.
  intros H. rewrite del_app_notin by done. simpl. by rewrite decide_True.
Qed.

Lemma wf_app_cons la lb k v :
  PyDict.wf (la ++ (k, v) :: lb)%list →
  PyDict.wf (la ++ lb)%list ∧ (k ∉ PyDict.keys la) ∧ (k ∉ PyDict.keys lb).
Proof.
  unfold PyDict.wf, PyDict.keys. rewrite !fmap_app, fmap_cons. simpl.
  rewrite !NoDup_app, NoDup_cons. intros (Hla & Hdisj & Hk & Hlb).
  split_and!; try done.
  - intros x Hx Hx'. apply (Hdisj x Hx). by apply list_elem_of_further.
  - intros Hin. apply (Hdisj k Hin). apply list_elem_of_here.
Qed.

Lemma get_app_None la lb k :
  k ∉ PyDict.keys la → k ∉ PyDict.keys lb → PyDict.get (la ++ lb)%list k = None.
Proof. intros Ha Hb. rewrite get_app_notin by done. by apply get_None_keys. Qed.

(** Lookups of other keys do not see the binding of [k]. *)
Lemma get_drop_binding la lb k v k' :
  k ≠ k' →
  PyDict.get (la ++ (k, v) :: lb)%list k' = PyDict.get (la ++ lb)%list k'.
Proof.
  intros Hne. induction la as [|[k0 v0] la IH]; simpl.
  - by rewrite decide_False.
  - by rewrite IH.
Qed.

Lemma set_comm_present d k1 k2 v1 v2 :
  k1 ≠ k2 → is_Some (PyDict.get d k1) → is_Some (PyDict.get d k2) →
  PyDict.set (PyDict.set d k1 v1) k2 v2 = PyDict.set (PyDict.set d k2 v2) k1 v1.
Proof.
  intros Hne. induction d as [|[k0 v0] d IH]; simpl.
  - intros [? ?]; done.
  - destruct (decide (k0 = k1)) as [E1|H1], (decide (k0 = k2)) as [E2|H2];
      simpl; [congruence | | |].
    + intros _ _. subst k0. by rewrite decide_False, decide_True.
    + intros _ _. subst k0. by rewrite decide_True, decide_False.
    + intros Ha Hb. rewrite !decide_False by done. f_equal. by apply IH.
Qed.

End pydict_del.

(** ** Updating and deleting records *)

Ltac by_compute := apply (bool_decide_unpack _); vm_compute; reflexivity.

Lemma available_doctors_elem d k doc :
  PyDict.get d k = Some doc → is_available doc = Some true → k ∈ available_doctors d.
Proof.
  intros Hget Hav. apply get_Some_elem in Hget.
  unfold available_doctors, PyDict.items.
  apply (list_elem_of_fmap_2' fst _ (k, doc)); [| done].
  apply list_elem_of_filter. split; [| done]. simpl. by apply truthy_true.
Qed.

(** X1: [update_patient] on a stored id succeeds and replaces that record
    where it stands: the records before and after it, their order, the
    doctors and the appointments are untouched, and [get_patient] then
    returns the posted record. *)
Theorem update_patient_replaces_in_place
    (s : State) (patient_id : Z) (old patient : Patient) :
  PyDict.get (patients_db s) patient_id = Some old →
  ∃ l1 l2,
    patients_db s = (l1 ++ (patient_id, old) :: l2)%list
    ∧ (patient_id ∉ PyDict.keys l1)
    ∧ update_patient s patient_id patient =
        (Ok (msg "Patient updated successfully"),
         {| patients_db := (l1 ++ (patient_id, patient) :: l2)%list;
            doctors_db := doctors_db s;
            appointments_db := appointments_db s |})
    ∧ get_patient (update_patient s patient_id patient).2 patient_id = Some patient.
Proof.
  intros H. destruct (get_split _ _ _ H) as (l1 & l2 & Hd & Hnotin).
  exists l1, l2. unfold update_patient, get_patient, with_patients. rewrite H. simpl.
  split_and!; [done | done | | apply get_set_eq].
  by rewrite Hd, set_at_split.
Qed.

Lemma update_patient_replaces_in_place_witness :
  ∃ l1 l2,
    patients_db (with_patients ward [(1, ann); (2, bob)]) = (l1 ++ (2, bob) :: l2)%list
    ∧ (2 ∉ PyDict.keys l1)
    ∧ update_patient (with_patients ward [(1, ann); (2, bob)]) 2 ann =
        (Ok (msg "Patient updated successfully"),
         {| patients_db := (l1 ++ (2, ann) :: l2)%list;
            doctors_db := doctors_db (with_patients ward [(1, ann); (2, bob)]);
            appointments_db := appointments_db (with_patients ward [(1, ann); (2, bob)]) |})
    ∧ get_patient (update_patient (with_patients ward [(1, ann); (2, bob)]) 2 ann).2 2
      = Some ann.
Proof.
  apply (update_patient_replaces_in_place (with_patients ward [(1, ann); (2, bob)]) 2 bob ann).
  reflexivity.
Defined.

(** X2: [update_doctor] stores the posted body whole, [is_available]
    included.  Posting a body whose flag is [True] for a doctor that an
    active appointment references leaves the appointment in place, makes the
    doctor selectable again, and so breaks the availability invariant. *)
Theorem update_doctor_overwrites_flag
    (s : State) (doctor_id : Z) (old doctor : Doctor) (a : pydict) :
  PyDict.get (doctors_db s) doctor_id = Some old →
  a ∈ appointments_db s →
  a !! "doctor_id" = Some (VInt doctor_id) →
  is_available doctor = Some true →
  (update_doctor s doctor_id doctor).1 = Ok (msg "Doctor updated successfully")
  ∧ get_doctor (update_doctor s doctor_id doctor).2 doctor_id = Some doctor
  ∧ a ∈ appointments_db (update_doctor s doctor_id doctor).2
  ∧ doctor_id ∈ available_doctors (doctors_db (update_doctor s doctor_id doctor).2)
  ∧ ¬ bidirectional_invariant (update_doctor s doctor_id doctor).2.
Proof.
  intros Hget Ha Hdoc Hav. unfold update_doctor, get_doctor. rewrite Hget. simpl.
  pose proof (get_set_eq (doctors_db s) doctor_id doctor) as Hnew.
  split_and!; [done | done | done | by eapply available_doctors_elem |].
  intros [Hfwd _]. destruct (Hfwd a Ha) as (d & doc & Hd & Hgetd & Hflag).
  simpl in Hgetd. rewrite Hdoc in Hd. injection Hd as <-.
  rewrite Hnew in Hgetd. injection Hgetd as <-. congruence.
Qed.

Lemma update_doctor_overwrites_flag_witness :
  (update_doctor ward_booked 1 (dr "Ada Byron" (Some true))).1
  = Ok (msg "Doctor updated successfully")
  ∧ get_doctor (update_doctor ward_booked 1 (dr "Ada Byron" (Some true))).2 1
    = Some (dr "Ada Byron" (Some true))
  ∧ Appointment 5 1 1699990000
    ∈ appointments_db (update_doctor ward_booked 1 (dr "Ada Byron" (Some true))).2
  ∧ 1 ∈ available_doctors
          (doctors_db (update_doctor ward_booked 1 (dr "Ada Byron" (Some true))).2)
  ∧ ¬ bidirectional_invariant (update_doctor ward_booked 1 (dr "Ada Byron" (Some true))).2.
Proof.
  apply (update_doctor_overwrites_flag ward_booked 1 (dr "Ada" (Some false))
           (dr "Ada Byron" (Some true)) (Appointment 5 1 1699990000)).
  - reflexivity.
  - apply list_elem_of_here.
  - reflexivity.
  - reflexivity.
Defined.

(** X3: [set_doctor_availability(doctor_id, True)] does not look at the
    appointments: on a doctor that an active appointment references it
    succeeds, keeps the appointment, makes the doctor selectable again and
    breaks the availability invariant. *)
Theorem set_doctor_availability_true_on_booked
    (s : State) (doctor_id : Z) (doc : Doctor) (a : pydict) :
  PyDict.get (doctors_db s) doctor_id = Some doc →
  a ∈ appointments_db s →
  a !! "doctor_id" = Some (VInt doctor_id) →
  (set_doctor_availability s doctor_id true).1
  = Ok (msg "Doctor availability status updated successfully")
  ∧ a ∈ appointments_db (set_doctor_availability s doctor_id true).2
  ∧ doctor_id ∈ available_doctors (doctors_db (set_doctor_availability s doctor_id true).2)
  ∧ ¬ bidirectional_invariant (set_doctor_availability s doctor_id true).2.
Proof.
  intros Hget Ha Hdoc. unfold set_doctor_availability. rewrite Hget. simpl.
  pose proof (get_set_eq (doctors_db s) doctor_id (set_is_available doc true)) as Hnew.
  split_and!; [done | done | by eapply available_doctors_elem |].
  intros [Hfwd _]. destruct (Hfwd a Ha) as (d & doc' & Hd & Hgetd & Hflag).
  simpl in Hgetd. rewrite Hdoc in Hd. injection Hd as <-.
  rewrite Hnew in Hgetd. injection Hgetd as <-. discriminate Hflag.
Qed.

Lemma set_doctor_availability_true_on_booked_witness :
  (set_doctor_availability ward_booked 1 true).1
  = Ok (msg "Doctor availability status updated successfully")
  ∧ Appointment 5 1 1699990000
    ∈ appointments_db (set_doctor_availability ward_booked 1 true).2
  ∧ 1 ∈ available_doctors (doctors_db (set_doctor_availability ward_booked 1 true).2)
  ∧ ¬ bidirectional_invariant (set_doctor_availability ward_booked 1 true).2.
Proof.
  apply (set_doctor_availability_true_on_booked ward_booked 1 (dr "Ada" (Some false))
           (Appointment 5 1 1699990000)).
  - reflexivity.
  - apply list_elem_of_here.
  - reflexivity.
Defined.

(** X4: [delete_patient] on a stored id succeeds and removes exactly that
    record: the id is gone, every other id reads as before, the store is one
    record shorter, doctors and appointments are untouched; a second delete
    of the same id raises [KeyError]. *)
Theorem delete_patient_present (s : State) (patient_id : Z) (old : Patient) :
  PyDict.wf (patients_db s) →
  PyDict.get (patients_db s) patient_id = Some old →
  ∃ s',
    delete_patient s patient_id = (Ok (msg "Patient deleted successfully"), s')
    ∧ get_patient s' patient_id = None
    ∧ (∀ j, j ≠ patient_id → get_patient s' j = get_patient s j)
    ∧ PyDict.len (patients_db s') = PyDict.len (patients_db s) - 1
    ∧ doctors_db s' = doctors_db s
    ∧ appointments_db s' = appointments_db s
    ∧ delete_patient s' patient_id = (Raise (KeyError (VInt patient_id)), s').
Proof.
  intros Hwf H. destruct (get_split _ _ _ H) as (l1 & l2 & Hd & Hnotin).
  rewrite Hd in Hwf. destruct (wf_app_cons _ _ _ _ Hwf) as (_ & _ & Hnotin2).
  pose proof (get_app_None l1 l2 patient_id Hnotin Hnotin2) as Hgone.
  exists (with_patients s (l1 ++ l2)%list).
  unfold delete_patient, get_patient. rewrite Hd, del_at_split by done. simpl.
  split_and!; try done.
  - intros j Hj. symmetry. by apply get_drop_binding.
  - unfold PyDict.len. rewrite !length_app. simpl. lia.
  - apply del_None in Hgone. by rewrite Hgone.
Qed.

Lemma delete_patient_present_witness :
  ∃ s',
    delete_patient (with_patients ward [(1, ann); (2, bob)]) 1
    = (Ok (msg "Patient deleted successfully"), s')
    ∧ get_patient s' 1 = None
    ∧ (∀ j, j ≠ 1 → get_patient s' j = get_patient (with_patients ward [(1, ann); (2, bob)]) j)
    ∧ PyDict.len (patients_db s')
      = PyDict.len (patients_db (with_patients ward [(1, ann); (2, bob)])) - 1
    ∧ doctors_db s' = doctors_db (with_patients ward [(1, ann); (2, bob)])
    ∧ appointments_db s' = appointments_db (with_patients ward [(1, ann); (2, bob)])
    ∧ delete_patient s' 1 = (Raise (KeyError (VInt 1)), s').
Proof.
  apply (delete_patient_present (with_patients ward [(1, ann); (2, bob)]) 1 ann).
  - by_compute.
  - reflexivity.
Defined.

(** X5: [delete_doctor] does not look at the appointments: deleting a
    doctor that an active appointment references succeeds, the appointments
    stay as they were, and the appointment is left referencing an id that
    [get_doctor] no longer finds. *)
Theorem delete_doctor_leaves_dangling_appointment
    (s : State) (doctor_id : Z) (doc : Doctor) (a : pydict) :
  PyDict.wf (doctors_db s) →
  PyDict.get (doctors_db s) doctor_id = Some doc →
  a ∈ appointments_db s →
  a !! "doctor_id" = Some (VInt doctor_id) →
  (delete_doctor s doctor_id).1 = Ok (msg "Doctor deleted successfully")
  ∧ appointments_db (delete_doctor s doctor_id).2 = appointments_db s
  ∧ patients_db (delete_doctor s doctor_id).2 = patients_db s
  ∧ a ∈ appointments_db (delete_doctor s doctor_id).2
  ∧ get_doctor (delete_doctor s doctor_id).2 doctor_id = None
  ∧ (∀ j, j ≠ doctor_id →
       get_doctor (delete_doctor s doctor_id).2 j = get_doctor s j).
Proof.
  intros Hwf H Ha _. destruct (get_split _ _ _ H) as (l1 & l2 & Hd & Hnotin).
  rewrite Hd in Hwf. destruct (wf_app_cons _ _ _ _ Hwf) as (_ & _ & Hnotin2).
  unfold delete_doctor, get_doctor. rewrite Hd, del_at_split by done. simpl.
  split_and!; try done.
  - by apply get_app_None.
  - intros j Hj. symmetry. by apply get_drop_binding.
Qed.

Lemma delete_doctor_leaves_dangling_appointment_witness :
  (delete_doctor ward_booked 1).1 = Ok (msg "Doctor deleted successfully")
  ∧ appointments_db (delete_doctor ward_booked 1).2 = appointments_db ward_booked
  ∧ patients_db (delete_doctor ward_booked 1).2 = patients_db ward_booked
  ∧ Appointment 5 1 1699990000 ∈ appointments_db (delete_doctor ward_booked 1).2
  ∧ get_doctor (delete_doctor ward_booked 1).2 1 = None
  ∧ (∀ j, j ≠ 1 → get_doctor (delete_doctor ward_booked 1).2 j = get_doctor ward_booked j).
Proof.
  apply (delete_doctor_leaves_dangling_appointment ward_booked 1 (dr "Ada" (Some false))
           (Appointment 5 1 1699990000)).
  - by_compute.
  - reflexivity.
  - apply list_elem_of_here.
  - reflexivity.
Defined.

(** ** Creating records in a row *)

Lemma wf_keys_seq {V} (d : PyDict.t V) n :
  PyDict.keys d = Z.of_nat <$> seq 1 n → PyDict.wf d.
Proof.
  intros H. unfold PyDict.wf. rewrite H.
  apply (NoDup_fmap_2 Z.of_nat), NoDup_seq.
Qed.

(** On a dict whose keys are [1..n], inserting under [len + 1] again and
    again appends the values under [n + 1], [n + 2], ... *)
Lemma insert_all_seq {V} (vs : list V) (d : PyDict.t V) n :
  PyDict.keys d = Z.of_nat <$> seq 1 n →
  insert_all d vs = (d ++ imap (λ i v, (Z.of_nat (n + i) + 1, v)) vs)%list.
Proof.
  revert d n. induction vs as [|v vs IH]; intros d n H.
  - simpl. by rewrite app_nil_r.
  - change (insert_all d (v :: vs))
      with (insert_all (PyDict.set d (PyDict.len d + 1) v) vs).
    rewrite (IH _ (S n)) by by apply keys_set_next.
    rewrite (keys_seq_len d n H), set_absent.
    + rewrite <- app_assoc, imap_cons. f_equal. simpl. rewrite Nat.add_0_r.
      f_equal. apply imap_ext. intros i x _. simpl. do 2 f_equal. lia.
    + apply get_None_keys. rewrite H. apply notin_seq_succ.
Qed.

Lemma imap_pair_values {V} (f : nat → Z) (vs : list V) :
  (imap (λ i v, (f i, v)) vs).*2 = vs.
Proof.
  revert f. induction vs as [|v vs IH]; intros f; [done |].
  rewrite imap_cons, fmap_cons. simpl. f_equal. apply (IH (f ∘ S)).
Qed.

Lemma imap_pair_keys {V} (f : nat → Z) (vs : list V) :
  (imap (λ i v, (f i, v)) vs).*1 = f <$> seq 0 (length vs).
Proof.
  revert f. induction vs as [|v vs IH]; intros f; [done |].
  rewrite imap_cons, fmap_cons. simpl. f_equal.
  etransitivity; [apply (IH (f ∘ S)) |].
  by rewrite <- fmap_S_seq, <- list_fmap_compose.
Qed.

Lemma insert_all_round_trip {V} (vs : list V) :
  PyDict.values (insert_all PyDict.empty vs) = vs
  ∧ (∀ i v, vs !! i = Some v →
       PyDict.get (insert_all PyDict.empty vs) (Z.of_nat i + 1) = Some v)
  ∧ (∀ j, j < 1 ∨ Z.of_nat (length vs) < j →
       PyDict.get (insert_all PyDict.empty vs) j = None).
Proof.
  pose proof (insert_all_seq vs (@PyDict.empty V) 0%nat eq_refl) as E.
  simpl in E.
  assert (PyDict.keys (insert_all PyDict.empty vs)
          = (λ i, Z.of_nat i + 1) <$> seq 0 (length vs)) as Hkeys.
  { rewrite E. unfold PyDict.keys. apply (imap_pair_keys (λ i, Z.of_nat i + 1)). }
  split_and!.
  - rewrite E. unfold PyDict.values. apply (imap_pair_values (λ i, Z.of_nat i + 1)).
  - intros i v Hi. apply elem_get_wf.
    + unfold PyDict.wf. rewrite Hkeys.
      apply (NoDup_fmap_2_strong (λ i, Z.of_nat i + 1)); [| apply NoDup_seq].
      intros x y _ _ Hxy. lia.
    + rewrite E. apply (elem_of_lookup_imap_2 (λ i v, (Z.of_nat i + 1, v)) vs v i Hi).
  - intros j Hj. apply get_None_keys. rewrite Hkeys. intros Hin.
    apply list_elem_of_fmap in Hin as (y & Hy & Hin). apply elem_of_seq in Hin. lia.
Qed.

Lemma run_create_patients_insert_all ps s :
  run s (CreatePatient <$> ps) = with_patients s (insert_all (patients_db s) ps).
Proof.
  revert s. induction ps as [|p ps IH]; intros s; [by destruct s |].
  simpl. fold (run (create_patient s p).2 (CreatePatient <$> ps)). by rewrite IH.
Qed.

Lemma run_create_doctors_insert_all ds s :
  run s (CreateDoctor <$> ds) = with_doctors s (insert_all (doctors_db s) ds).
Proof.
  revert s. induction ds as [|d ds IH]; intros s; [by destruct s |].
  simpl. fold (run (create_doctor s d).2 (CreateDoctor <$> ds)). by rewrite IH.
Qed.

(** X6: records created in a row on the empty store can be read back:
    [get_patients] returns the posted patients in the order posted, the
    [i]-th of them (from 0) is what [get_patient] returns for id [i + 1],
    and [get_patient] returns [None] for every id outside [1..n]; likewise
    for doctors with [get_doctors] and [get_doctor]. *)
Theorem created_records_round_trip :
  (∀ ps : list Patient,
      get_patients (run initial_state (CreatePatient <$> ps)) = ps
      ∧ (∀ i p, ps !! i = Some p →
           get_patient (run initial_state (CreatePatient <$> ps)) (Z.of_nat i + 1) = Some p)
      ∧ (∀ j, j < 1 ∨ Z.of_nat (length ps) < j →
           get_patient (run initial_state (CreatePatient <$> ps)) j = None))
  ∧ (∀ ds : list Doctor,
      get_doctors (run initial_state (CreateDoctor <$> ds)) = ds
      ∧ (∀ i d, ds !! i = Some d →
           get_doctor (run initial_state (CreateDoctor <$> ds)) (Z.of_nat i + 1) = Some d)
      ∧ (∀ j, j < 1 ∨ Z.of_nat (length ds) < j →
           get_doctor (run initial_state (CreateDoctor <$> ds)) j = None)).
Proof.
  split.
  - intros ps. rewrite run_create_patients_insert_all.
    unfold get_patients, get_patient. simpl. apply insert_all_round_trip.
  - intros ds. rewrite run_create_doctors_insert_all.
    unfold get_doctors, get_doctor. simpl. apply insert_all_round_trip.
Qed.

(** X7: in a patient store holding the ids [1..n], deleting any id [k]
    below [n] makes the next create report the id [n] again: the record
    stored under [n] is overwritten by the new one and the store holds
    [n - 1] records, so one patient is lost without any delete naming it. *)
Theorem delete_then_create_overwrites_last
    (s : State) (n : nat) (k : Z) (victim patient : Patient) :
  PyDict.keys (patients_db s) = Z.of_nat <$> seq 1 n →
  1 ≤ k < Z.of_nat n →
  get_patient s (Z.of_nat n) = Some victim →
  ∃ s1 s2,
    delete_patient s k = (Ok (msg "Patient deleted successfully"), s1)
    ∧ get_patient s1 (Z.of_nat n) = Some victim
    ∧ create_patient s1 patient =
        (Ok (<["patient_id" := VInt (Z.of_nat n)]> (msg "Patient created successfully")), s2)
    ∧ get_patient s2 (Z.of_nat n) = Some patient
    ∧ PyDict.len (patients_db s2) = Z.of_nat n - 1.
Proof.
  unfold get_patient. intros Hkeys Hk Hvictim.
  assert (is_Some (PyDict.get (patients_db s) k)) as [old Hold].
  { destruct (PyDict.get (patients_db s) k) eqn:E; [by eexists |].
    apply get_None_keys in E. exfalso. apply E. rewrite Hkeys.
    apply list_elem_of_fmap. exists (Z.to_nat k). split; [lia |].
    apply elem_of_seq. lia. }
  destruct (get_split _ _ _ Hold) as (l1 & l2 & Hd & Hnotin).
  assert (PyDict.len (l1 ++ l2)%list + 1 = Z.of_nat n) as Hlen.
  { pose proof (keys_seq_len _ _ Hkeys) as H. rewrite Hd in H.
    unfold PyDict.len in *. rewrite length_app in *. simpl in H. lia. }
  assert (PyDict.get (l1 ++ l2)%list (Z.of_nat n) = Some victim) as Hstill.
  { rewrite <- (get_drop_binding l1 l2 k old) by lia. by rewrite <- Hd. }
  eexists (with_patients s (l1 ++ l2)%list), _.
  unfold delete_patient, create_patient. rewrite Hd, del_at_split by done. simpl.
  rewrite Hlen. split_and!; [done | done | done | apply get_set_eq |].
  unfold PyDict.len in *. simpl. rewrite length_set_present by by eexists. lia.
Qed.

Lemma delete_then_create_overwrites_last_witness :
  ∃ s1 s2,
    delete_patient (with_patients ward [(1, ann); (2, bob)]) 1
    = (Ok (msg "Patient deleted successfully"), s1)
    ∧ get_patient s1 2 = Some bob
    ∧ create_patient s1 ann =
        (Ok (<["patient_id" := VInt 2]> (msg "Patient created successfully")), s2)
    ∧ get_patient s2 2 = Some ann
    ∧ PyDict.len (patients_db s2) = 2 - 1.
Proof.
  apply (delete_then_create_overwrites_last
           (with_patients ward [(1, ann); (2, bob)]) 2 1 bob ann).
  - reflexivity.
  - lia.
  - reflexivity.
Defined.

(** ** Failing requests *)

Lemma find_by_id_Some l i a :
  find_by_id l i = inr (Some a) → a ∈ l ∧ a !! "id" = Some (VInt i).
Proof.
  induction l as [|x l IH]; simpl; [done |].
  destruct (x !! "id") as [v|] eqn:E; [| done].
  destruct (decide (v = VInt i)) as [->|Hne].
  - intros [= ->]. split; [apply list_elem_of_here | done].
  - intros H. destruct (IH H) as [Hin Hid]. split; [by apply list_elem_of_further | done].
Qed.

Lemma list_remove_elem l a : a ∈ l → is_Some (list_remove l a).
Proof.
  induction l as [|x l IH]; simpl.
  - intros H. by apply elem_of_nil in H.
  - intros H. destruct (decide (x = a)) as [->|Hne]; [by eexists |].
    apply elem_of_cons in H as [->|H]; [done |].
    destruct (IH H) as [r ->]. by eexists.
Qed.

Lemma create_appointment_raise s patient_id now e :
  (create_appointment s patient_id now).1 = Raise e →
  (create_appointment s patient_id now).2 = s.
Proof.
  unfold create_appointment.
  destruct (available_doctors (doctors_db s)) as [|k rest] eqn:E; [done |].
  destruct (available_doctors_cons _ _ _ E) as (l1 & doc & l2 & Hd & _ & _).
  destruct (elem_get_is_Some (doctors_db s) k doc) as [doc' Hget].
  { rewrite Hd. apply elem_of_app. right. apply list_elem_of_here. }
  simpl. by rewrite Hget.
Qed.

Lemma complete_appointment_raise s i e :
  (complete_appointment s i).1 = Raise e → (complete_appointment s i).2 = s.
Proof.
  unfold complete_appointment.
  destruct (find_by_id (appointments_db s) i) as [e'|found] eqn:E; [done |].
  destruct (falsy found); [done |].
  destruct found as [a|]; [| done].
  destruct (a !! "doctor_id") as [v|]; [| done].
  destruct (get_doctor_by_value (doctors_db s) v) as [[k doc]|]; [| done].
  simpl. apply find_by_id_Some in E as [Hin _].
  by destruct (list_remove_elem _ _ Hin) as [r ->].
Qed.

Lemma cancel_appointment_raise s i e :
  (cancel_appointment s i).1 = Raise e → (cancel_appointment s i).2 = s.
Proof.
  unfold cancel_appointment.
  destruct (find_by_id (appointments_db s) i) as [e'|found] eqn:E; [done |].
  destruct (falsy found); [done |].
  destruct found as [a|]; [| done].
  destruct (a !! "doctor_id") as [v|]; [| done].
  destruct (get_doctor_by_value (doctors_db s) v) as [[k doc]|]; [| done].
  simpl. apply find_by_id_Some in E as [Hin _].
  by destruct (list_remove_elem _ _ Hin) as [r ->].
Qed.

(** X8: no handler leaves a half-done write behind.  On every store and
    for every request, a handler that raises leaves the store exactly as it
    found it: in [create_appointment] the subscript after the append cannot
    fail, and in the life-cycle handlers [list.remove] always finds the
    appointment the lookup returned. *)
Theorem raising_handler_leaves_store (s : State) (r : request) (e : exn) :
  (handle s r).1 = Raise e → (handle s r).2 = s.
Proof.
  destruct r; simpl.
  - done.
  - unfold update_patient. by case_match.
  - unfold delete_patient. by case_match.
  - done.
  - unfold update_doctor. by case_match.
  - unfold delete_doctor. by case_match.
  - apply create_appointment_raise.
  - apply complete_appointment_raise.
  - apply cancel_appointment_raise.
  - unfold set_doctor_availability. by case_match.
Qed.

Lemma raising_handler_leaves_store_witness :
  (handle ward_booked (DeleteDoctor 7)).2 = ward_booked.
Proof.
  apply (raising_handler_leaves_store ward_booked (DeleteDoctor 7) (KeyError (VInt 7))).
  reflexivity.
Defined.

(** ** Appointments in reachable stores *)

Lemma run_app s rs rs' : run s (rs ++ rs')%list = run (run s rs) rs'.
Proof. unfold run. apply fold_left_app. Qed.

Lemma handle_appointments_prefix s r :
  Forall (λ a : pydict, dom a = appointment_fields) (appointments_db s) →
  appointments_db s `prefix_of` appointments_db (handle s r).2.
Proof.
  intros H.
  assert (Forall (λ a : pydict, a !! "id" = None) (appointments_db s)) as Hnoid.
  { eapply Forall_impl; [exact H |]. intros a. apply fields_no_id. }
  destruct r; simpl.
  - done.
  - unfold update_patient. by case_match.
  - unfold delete_patient. by case_match.
  - done.
  - unfold update_doctor. by case_match.
  - unfold delete_doctor. by case_match.
  - destruct (create_appointment_appends s patient_id now) as [->|[k ->]]; [done |].
    by apply prefix_app_r.
  - by rewrite complete_appointment_no_id.
  - by rewrite cancel_appointment_no_id.
  - unfold set_doctor_availability. by case_match.
Qed.

Lemma run_appointments_prefix rs s :
  Forall (λ a : pydict, dom a = appointment_fields) (appointments_db s) →
  appointments_db s `prefix_of` appointments_db (run s rs).
Proof.
  revert s. induction rs as [|r rs IH]; intros s H; [done |].
  transitivity (appointments_db (handle s r).2).
  - by apply handle_appointments_prefix.
  - apply (IH (handle s r).2). by apply handle_appointment_fields.
Qed.

(** X9: in every store reached from the empty one by any requests, the
    two life-cycle handlers do nothing for any id: with no active
    appointment they raise [HTTPException(404)], with at least one they
    raise [KeyError('id')], and in both cases the store is unchanged. *)
Theorem lifecycle_handlers_inert_when_reachable (rs : list request) (appointment_id : Z) :
  complete_appointment (run initial_state rs) appointment_id =
    (match appointments_db (run initial_state rs) with
     | [] => Raise (HTTPException 404 "Appointment not found")
     | _ :: _ => Raise (KeyError (VStr "id"))
     end, run initial_state rs)
  ∧ cancel_appointment (run initial_state rs) appointment_id =
    (match appointments_db (run initial_state rs) with
     | [] => Raise (HTTPException 404 "Appointment not found")
     | _ :: _ => Raise (KeyError (VStr "id"))
     end, run initial_state rs).
Proof.
  assert (Forall (λ a : pydict, a !! "id" = None) (appointments_db (run initial_state rs)))
    as Hnoid.
  { eapply Forall_impl; [apply run_appointment_fields; constructor |].
    intros a. apply fields_no_id. }
  split; [by apply complete_appointment_no_id | by apply cancel_appointment_no_id].
Qed.

(** X10: an appointment booked through the handlers is never removed: the
    active collection after any further requests starts with the active
    collection before them, in the same order. *)
Theorem appointments_are_never_removed (rs rs' : list request) :
  appointments_db (run initial_state rs)
  `prefix_of` appointments_db (run initial_state (rs ++ rs')%list).
Proof.
  rewrite run_app. apply run_appointments_prefix.
  apply run_appointment_fields. constructor.
Qed.

(** ** Bookings in a row *)

Lemma available_doctors_app (l1 l2 : list (Z * Doctor)) :
  available_doctors (l1 ++ l2)%list = (available_doctors l1 ++ available_doctors l2)%list.
Proof. unfold available_doctors, PyDict.items. by rewrite filter_app, fmap_app. Qed.

Lemma available_doctors_none (l : list (Z * Doctor)) :
  Forall (λ kv : Z * Doctor, is_available kv.2 ≠ Some true) l → available_doctors l = [].
Proof.
  intros H. apply available_doctors_nil. intros k doc Hin.
  rewrite Forall_forall in H. exact (H (k, doc) Hin).
Qed.

(** What a successful booking writes, on a store whose doctors form a
    dict. *)
Lemma create_appointment_head s patient_id now k rest :
  PyDict.wf (doctors_db s) →
  available_doctors (doctors_db s) = k :: rest →
  ∃ doc,
    PyDict.get (doctors_db s) k = Some doc
    ∧ is_available doc = Some true
    ∧ create_appointment s patient_id now =
        (Ok (msg "Appointment created successfully"),
         {| patients_db := patients_db s;
            doctors_db := PyDict.set (doctors_db s) k (set_is_available doc false);
            appointments_db := (appointments_db s ++ [Appointment patient_id k now])%list |})
    ∧ available_doctors (PyDict.set (doctors_db s) k (set_is_available doc false)) = rest.
Proof.
  intros Hwf E.
  destruct (available_doctors_cons _ _ _ E) as (l1 & doc & l2 & Hd & Hav & Hl1).
  assert (k ∉ PyDict.keys l1) as Hk by (rewrite Hd in Hwf; by eapply wf_split_notin).
  assert (PyDict.get (doctors_db s) k = Some doc) as Hget
    by (rewrite Hd; by apply get_at_split).
  exists doc. split_and!; [done | done | by apply (create_appointment_ok _ _ _ k rest) |].
  rewrite Hd in E |- *. rewrite set_at_split by done.
  rewrite (available_doctors_split l1 k doc l2 Hl1 Hav) in E. injection E as <-.
  rewrite available_doctors_app, (available_doctors_none l1 Hl1). simpl.
  unfold available_doctors at 1, PyDict.items. by rewrite filter_cons_False.
Qed.

(** X11: a successful booking takes the head of the available doctors and
    nothing else: that doctor's flag becomes [False] with name,
    specialization and phone kept, the doctors still available are the rest
    of the list in the same order, every other doctor reads as before, the
    ids keep their order and the patients are untouched. *)
Theorem create_appointment_books_head
    (s : State) (patient_id : Z) (now : datetime) (k : Z) (rest : list Z) :
  PyDict.wf (doctors_db s) →
  available_doctors (doctors_db s) = k :: rest →
  ∃ doc s',
    get_doctor s k = Some doc
    ∧ create_appointment s patient_id now =
        (Ok (msg "Appointment created successfully"), s')
    ∧ get_doctor s' k
      = Some (mkDoctor (name doc) (specialization doc) (phone doc) (Some false))
    ∧ available_doctors (doctors_db s') = rest
    ∧ (∀ j, j ≠ k → get_doctor s' j = get_doctor s j)
    ∧ PyDict.keys (doctors_db s') = PyDict.keys (doctors_db s)
    ∧ patients_db s' = patients_db s.
Proof.
  intros Hwf E.
  destruct (create_appointment_head s patient_id now k rest Hwf E)
    as (doc & Hget & Hav & Hrun & Hrest).
  eexists doc, _. unfold get_doctor. split_and!; [done | exact Hrun | simpl .. ].
  - apply get_set_eq.
  - done.
  - intros j Hj. by apply get_set_ne.
  - apply keys_set_present. by eexists.
  - done.
Qed.

Lemma create_appointment_books_head_witness :
  ∃ doc s',
    get_doctor ward 3 = Some doc
    ∧ create_appointment ward 8 1700000000 =
        (Ok (msg "Appointment created successfully"), s')
    ∧ get_doctor s' 3
      = Some (mkDoctor (name doc) (specialization doc) (phone doc) (Some false))
    ∧ available_doctors (doctors_db s') = [4]
    ∧ (∀ j, j ≠ 3 → get_doctor s' j = get_doctor ward j)
    ∧ PyDict.keys (doctors_db s') = PyDict.keys (doctors_db ward)
    ∧ patients_db s' = patients_db ward.
Proof.
  apply (create_appointment_books_head ward 8 1700000000 3 [4]).
  - by_compute.
  - reflexivity.
Defined.

(** X12: bookings served in a row hand out the available doctors in
    stored order, one each: the [i]-th request gets the [i]-th available
    doctor, the requests beyond the number of available doctors are refused
    and add nothing, and the doctors still available afterwards are those
    not handed out. *)
Theorem bookings_take_available_doctors_in_order
    (s : State) (reqs : list (Z * datetime)) :
  PyDict.wf (doctors_db s) →
  appointments_db (run s (booking <$> reqs))
  = (appointments_db s ++ zip_with booked_with reqs (available_doctors (doctors_db s)))%list
  ∧ available_doctors (doctors_db (run s (booking <$> reqs)))
    = drop (length reqs) (available_doctors (doctors_db s))
  ∧ patients_db (run s (booking <$> reqs)) = patients_db s.
Proof.
  revert s. induction reqs as [|[p t] reqs IH]; intros s Hwf.
  - simpl. by rewrite app_nil_r, drop_0.
  - change (run s (booking <$> (p, t) :: reqs))
      with (run (create_appointment s p t).2 (booking <$> reqs)).
    destruct (available_doctors (doctors_db s)) as [|k rest] eqn:E.
    + assert ((create_appointment s p t).2 = s) as ->
        by (unfold create_appointment; by rewrite E).
      destruct (IH s Hwf) as (Ha & Hd & Hp). rewrite E in Ha, Hd.
      rewrite zip_with_nil_r in Ha. rewrite drop_nil in Hd.
      by rewrite zip_with_nil_r.
    + destruct (create_appointment_head s p t k rest Hwf E)
        as (doc & Hget & Hav & Hrun & Hrest).
      rewrite Hrun. simpl.
      match goal with |- context [run ?s1 _] => destruct (IH s1) as (Ha & Hd & Hp) end.
      { simpl. by apply wf_set. }
      simpl in Ha, Hd, Hp. rewrite Hrest in Ha, Hd.
      rewrite Ha, Hd, Hp. by rewrite <- app_assoc.
Qed.

Lemma bookings_take_available_doctors_in_order_witness :
  appointments_db (run ward (booking <$> [(8, 1700000000); (9, 1700000060); (8, 1700000120)]))
  = (appointments_db ward
     ++ zip_with booked_with [(8, 1700000000); (9, 1700000060); (8, 1700000120)]
          (available_doctors (doctors_db ward)))%list
  ∧ available_doctors
      (doctors_db (run ward (booking <$> [(8, 1700000000); (9, 1700000060); (8, 1700000120)])))
    = drop (length [(8, 1700000000); (9, 1700000060); (8, 1700000120)])
           (available_doctors (doctors_db ward))
  ∧ patients_db (run ward (booking <$> [(8, 1700000000); (9, 1700000060); (8, 1700000120)]))
    = patients_db ward.
Proof.
  apply (bookings_take_available_doctors_in_order ward
           [(8, 1700000000); (9, 1700000060); (8, 1700000120)]).
  by_compute.
Defined.

Example ward_bookings :
  appointments_db (run ward (booking <$> [(8, 1700000000); (9, 1700000060); (8, 1700000120)]))
  = [Appointment 8 3 1700000000; Appointment 9 4 1700000060]
  ∧ (handle (run ward (booking <$> [(8, 1700000000); (9, 1700000060)]))
            (booking (8, 1700000120))).1
    = Raise (HTTPException 400 "No available doctors at the moment").
Proof. split; reflexivity. Qed.

(** ** One appointment per doctor *)




(** ** Composing availability writes *)

(** X14: writes of the availability flag compose as plain assignments:
    on the same doctor the last write wins (outcome and store are those of
    the second write alone), and writes to two different doctors give the
    same store in either order. *)
Theorem set_doctor_availability_composes (s : State) (i j : Z) (b c : bool) :
  set_doctor_availability (set_doctor_availability s i b).2 i c
  = set_doctor_availability s i c
  ∧ (i ≠ j →
     (set_doctor_availability (set_doctor_availability s i b).2 j c).2
     = (set_doctor_availability (set_doctor_availability s j c).2 i b).2).
Proof.
  split.
  - unfold set_doctor_availability.
    destruct (PyDict.get (doctors_db s) i) as [doc|] eqn:E; simpl.
    + rewrite get_set_eq. unfold with_doctors. simpl. by rewrite set_set.
    + by rewrite E.
  - intros Hne. unfold set_doctor_availability.
    destruct (PyDict.get (doctors_db s) i) as [di|] eqn:Ei;
      destruct (PyDict.get (doctors_db s) j) as [dj|] eqn:Ej;
      do 2 (simpl; rewrite ?get_set_ne by done; rewrite ?Ei, ?Ej); try done.
    unfold with_doctors. simpl. f_equal.
    apply set_comm_present; [done | by eexists | by eexists].
Qed.

(** ** The invariant and the doctor records *)

Lemma run_create_doctors_fresh ds :
  Forall (λ d : Doctor, is_available d ≠ Some false) ds →
  consistent (run initial_state (CreateDoctor <$> ds)).
Proof.
  intros Hds. apply consistent_fresh.
  - eapply wf_keys_seq. apply (run_create_doctors ds initial_state 0%nat eq_refl).
  - by rewrite run_create_doctors_insert_all.
  - unfold PyDict.items. rewrite run_create_doctors_insert_all. simpl.
    destruct (insert_all_round_trip ds) as (Hvals & _ & _).
    unfold PyDict.values in Hvals.
    apply (Forall_fmap snd (λ d : Doctor, is_available d ≠ Some false)).
    by rewrite Hvals.
Qed.

(** X15: with doctors on the books the invariant is kept too.  After
    posting any doctors none of whom is posted with [is_available = False],
    every sequence of the three life-cycle operations leads to a store where
    each active appointment references a doctor whose flag is [False], each
    such doctor is referenced by an active appointment, and both are equal
    in number. *)
Theorem lifecycle_invariant_with_posted_doctors
    (ds : list Doctor) (ops : list lifecycle_op) :
  Forall (λ d : Doctor, is_available d ≠ Some false) ds →
  bidirectional_invariant
    (run (run initial_state (CreateDoctor <$> ds)) (lifecycle_request <$> ops))
  ∧ unavailable_count
      (doctors_db (run (run initial_state (CreateDoctor <$> ds)) (lifecycle_request <$> ops)))
    = length
        (appointments_db
           (run (run initial_state (CreateDoctor <$> ds)) (lifecycle_request <$> ops))).
Proof.
  intros Hds.
  destruct (run_lifecycle_consistent ops _ (run_create_doctors_fresh ds Hds))
    as (_ & _ & Hinv & Hcount).
  done.
Qed.

Lemma lifecycle_invariant_with_posted_doctors_witness :
  bidirectional_invariant
    (run (run initial_state (CreateDoctor <$> [dr "Ada" (Some true); dr "Ben" None]))
         (lifecycle_request <$> [OpCreate 1 1700000000; OpCreate 2 1700000060; OpCancel 1]))
  ∧ unavailable_count
      (doctors_db
         (run (run initial_state (CreateDoctor <$> [dr "Ada" (Some true); dr "Ben" None]))
              (lifecycle_request <$> [OpCreate 1 1700000000; OpCreate 2 1700000060; OpCancel 1])))
    = length
        (appointments_db
           (run (run initial_state (CreateDoctor <$> [dr "Ada" (Some true); dr "Ben" None]))
                (lifecycle_request <$> [OpCreate 1 1700000000; OpCreate 2 1700000060; OpCancel 1]))).
Proof.
  apply (lifecycle_invariant_with_posted_doctors
           [dr "Ada" (Some true); dr "Ben" None]
           [OpCreate 1 1700000000; OpCreate 2 1700000060; OpCancel 1]).
  repeat constructor; simpl; discriminate.
Defined.

(** X16: [create_doctor] stores the posted flag as it is.  Posting a
    doctor with [is_available = False] while no appointment is active leaves
    a doctor whose flag is [False] and whom no appointment references: the
    invariant does not hold after that request. *)
Theorem create_doctor_unavailable_breaks_invariant (s : State) (doctor : Doctor) :
  appointments_db s = [] →
  is_available doctor = Some false →
  get_doctor (create_doctor s doctor).2 (PyDict.len (doctors_db s) + 1) = Some doctor
  ∧ appointments_db (create_doctor s doctor).2 = []
  ∧ ¬ bidirectional_invariant (create_doctor s doctor).2.
Proof.
  intros Happ Hflag. unfold create_doctor, get_doctor. simpl.
  pose proof (get_set_eq (doctors_db s) (PyDict.len (doctors_db s) + 1) doctor) as Hnew.
  split_and!; [done | done |].
  intros [_ Hbwd]. destruct (Hbwd _ _ Hnew Hflag) as (a & Ha & _).
  simpl in Ha. rewrite Happ in Ha. by apply elem_of_nil in Ha.
Qed.

Lemma create_doctor_unavailable_breaks_invariant_witness :
  get_doctor (create_doctor clinic (dr "Eve" (Some false))).2
             (PyDict.len (doctors_db clinic) + 1)
  = Some (dr "Eve" (Some false))
  ∧ appointments_db (create_doctor clinic (dr "Eve" (Some false))).2 = []
  ∧ ¬ bidirectional_invariant (create_doctor clinic (dr "Eve" (Some false))).2.
Proof.
  apply (create_doctor_unavailable_breaks_invariant clinic (dr "Eve" (Some false)));
    reflexivity.
Defined.
